(** * The API-playground request builder (packages/openapi/src/ui/playground/fetcher.ts)

    A shallow embedding of [convertValue], [getDynamicFieldSchema],
    [createBodyFromValue] and [createBrowserFetcher], together with the
    ECMAScript primitives they call ([String], [Number], [typeof],
    [Object.keys], [Object.fromEntries], [JSON.stringify], [FormData]),
    and the properties of the request builder stated over them. *)

From Stdlib Require Import Ascii String DecimalString.
From Stdlib Require Import DecimalFacts DecimalN DecimalZ.
From stdpp Require Import gmap strings list.

Set Default Proof Using "Type".
#[local] Set Warnings "-register-all".

(* ===================================================================== *)
(** * Characters and JSON lexical structure *)
(* ===================================================================== *)

Definition dquote : ascii := "034"%char.
Definition backslash : ascii := "092"%char.

Definition is_ws (c : ascii) : bool :=
  ((c =? " ") || (c =? "009") || (c =? "010") || (c =? "013"))%char.

Definition is_digit (c : ascii) : bool :=
  ((48 <=? N_of_ascii c) && (N_of_ascii c <=? 57))%N.

Definition is_digit19 (c : ascii) : bool :=
  ((49 <=? N_of_ascii c) && (N_of_ascii c <=? 57))%N.

Definition is_control (c : ascii) : bool := (N_of_ascii c <? 32)%N.

(** The JSON number grammar (RFC 8259, section 6) as an automaton:
    [-]? ( 0 | [1-9][0-9]* ) ( . [0-9]+ )? ( [eE] [+-]? [0-9]+ )? *)
Inductive NumState :=
| NStart | NMinus | NZero | NInt | NDot | NFrac | NExpMark | NExpSign | NExp.

Definition num_step (st : NumState) (c : ascii) : option NumState :=
  match st with
  | NStart =>
      if (c =? "-")%char then Some NMinus
      else if (c =? "0")%char then Some NZero
      else if is_digit19 c then Some NInt else None
  | NMinus =>
      if (c =? "0")%char then Some NZero
      else if is_digit19 c then Some NInt else None
  | NZero =>
      if (c =? ".")%char then Some NDot
      else if ((c =? "e") || (c =? "E"))%char then Some NExpMark else None
  | NInt =>
      if is_digit c then Some NInt
      else if (c =? ".")%char then Some NDot
      else if ((c =? "e") || (c =? "E"))%char then Some NExpMark else None
  | NDot => if is_digit c then Some NFrac else None
  | NFrac =>
      if is_digit c then Some NFrac
      else if ((c =? "e") || (c =? "E"))%char then Some NExpMark else None
  | NExpMark =>
      if ((c =? "+") || (c =? "-"))%char then Some NExpSign
      else if is_digit c then Some NExp else None
  | NExpSign => if is_digit c then Some NExp else None
  | NExp => if is_digit c then Some NExp else None
  end.

Definition num_accept (st : NumState) : bool :=
  match st with
  | NZero | NInt | NFrac | NExp => true
  | _ => false
  end.

Fixpoint num_run (st : NumState) (s : string) : bool :=
  match s with
  | EmptyString => num_accept st
  | String c r =>
      match num_step st c with
      | Some st' => num_run st' r
      | None => false
      end
  end.

Definition is_json_number (s : string) : bool := num_run NStart s.

(** Characters that can occur in a JSON number token. *)
Definition is_numchar (c : ascii) : bool :=
  (is_digit c || (c =? "-") || (c =? "+") || (c =? ".") || (c =? "e") || (c =? "E"))%char.

Definition hex_digit (n : N) : ascii :=
  if (n <? 10)%N then ascii_of_N (48 + n) else ascii_of_N (87 + n).

Definition hex_value (c : ascii) : option N :=
  let n := N_of_ascii c in
  if ((48 <=? n) && (n <=? 57))%N then Some (n - 48)%N
  else if ((97 <=? n) && (n <=? 102))%N then Some (n - 87)%N
  else if ((65 <=? n) && (n <=? 70))%N then Some (n - 55)%N
  else None.

(* ===================================================================== *)
(** * ECMAScript numbers

    The playground never does arithmetic: it obtains numbers from the
    engine's [Number(...)] coercion and hands them to [String(...)],
    [JSON.stringify] and truthiness tests.  These engine primitives on IEEE
    doubles are taken as an interface. *)
(* ===================================================================== *)

Class JsNumber := {
  number : Type;
  (** [NaN], [+0] and [1]: the results of [Number(undefined)],
      [Number(null)]/[Number(false)] and [Number(true)]. *)
  num_NaN : number;
  num_zero : number;
  num_one : number;
  (** StringToNumber (ECMA-262 7.1.4.1.1). *)
  StringToNumber : string -> number;
  (** Number::toString, radix 10 (ECMA-262 6.1.6.1.20). *)
  NumberToString : number -> string;
  (** [Number.isFinite]. *)
  num_isFinite : number -> bool;
  (** ToBoolean on a number: false for [+0], [-0] and [NaN]. *)
  num_truthy : number -> bool;
  (** The decimal form of a finite number is a JSON number token. *)
  NumberToString_json :
    forall n, num_isFinite n = true -> is_json_number (NumberToString n) = true
}.

(** The integer fragment, used to evaluate the model on concrete inputs:
    integers and [NaN], with decimal integer literals as the only numeric
    strings. *)
Inductive IntNum := INaN | IInt (z : Z).

Fixpoint digits_value (acc : N) (s : string) : option N :=
  match s with
  | EmptyString => Some acc
  | String c r =>
      if is_digit c then digits_value (10 * acc + (N_of_ascii c - 48))%N r
      else None
  end.

Definition IntNum_of_string (s : string) : IntNum :=
  match s with
  | EmptyString => IInt 0
  | String c r =>
      if (c =? "-")%char then
        match r with
        | EmptyString => INaN
        | _ => match digits_value 0 r with
               | Some n => IInt (- Z.of_N n)
               | None => INaN
               end
        end
      else match digits_value 0 s with
           | Some n => IInt (Z.of_N n)
           | None => INaN
           end
  end.

Definition IntNum_to_string (n : IntNum) : string :=
  match n with
  | INaN => "NaN"
  | IInt z => NilZero.string_of_int (Z.to_int z)
  end.

Definition IntNum_isFinite (n : IntNum) : bool :=
  match n with INaN => false | IInt _ => true end.

Definition IntNum_truthy (n : IntNum) : bool :=
  match n with INaN => false | IInt z => negb (z =? 0)%Z end.

Definition IntNumbers : JsNumber.
Proof.
  refine {| number := IntNum;
            num_NaN := INaN;
            num_zero := IInt 0;
            num_one := IInt 1;
            StringToNumber := IntNum_of_string;
            NumberToString := IntNum_to_string;
            num_isFinite := IntNum_isFinite;
            num_truthy := IntNum_truthy;
            NumberToString_json := _ |}.
  abstract (
    assert (Hdigits : forall d, num_run NInt (NilEmpty.string_of_uint d) = true)
      by (induction d; simpl; auto);
    assert (Hnorm : forall d,
      num_run NStart (NilZero.string_of_uint (Decimal.unorm d)) = true /\
      (Decimal.unorm d = Decimal.D0 Decimal.Nil \/
       num_run NMinus (NilZero.string_of_uint (Decimal.unorm d)) = true))
      by (induction d;
          [ split; [|left]; reflexivity
          | rewrite unorm_D0; assumption
          | split; [|right]; simpl; apply Hdigits .. ]);
    assert (Hpos : forall p,
      num_run NStart (NilZero.string_of_uint (Pos.to_uint p)) = true /\
      num_run NMinus (NilZero.string_of_uint (Pos.to_uint p)) = true)
      by (intros p;
          assert (E : Pos.to_uint p = Decimal.unorm (Pos.to_uint p))
            by (rewrite <- (DecimalPos.Unsigned.to_of (Pos.to_uint p));
                rewrite DecimalPos.Unsigned.of_to; reflexivity);
          destruct (Hnorm (Pos.to_uint p)) as [H1 [H2|H2]];
          rewrite <- E in *; auto;
          exfalso; apply (DecimalPos.Unsigned.to_uint_nonzero p); exact H2);
    intros [|[|p|p]]; simpl; try done; intros _;
    [ apply Hpos
    | unfold is_json_number; simpl;
      destruct (Hpos p) as [_ H]; destruct (Pos.to_uint p); exact H ]).
Defined.

(* ===================================================================== *)
(** * Exceptions, diagnostics and the computations of the playground *)
(* ===================================================================== *)

(** A thrown value: an instance of [Error] with its [name] and [message],
    or any other value, given by the text its [toString()] returns. *)
Inductive Thrown :=
| ErrorObject (name message : string)
| NonError (text : string).

Inductive Outcome (A : Type) :=
| Ok (a : A)
| Throw (e : Thrown)
| OutOfFuel.
Arguments Ok {A} a.
Arguments Throw {A} e.
Arguments OutOfFuel {A}.

(** A run of playground code: what it wrote with [console.warn], and how it
    ended.  [OutOfFuel] stands for a recursion that the given fuel did not
    see the end of. *)
Record Run (A : Type) := mkRun { warnings : list string; outcome : Outcome A }.
Arguments mkRun {A} warnings outcome.
Arguments warnings {A} r.
Arguments outcome {A} r.

Definition Run_ret {A} (a : A) : Run A := mkRun [] (Ok a).

Definition Run_bind {A B} (f : A -> Run B) (m : Run A) : Run B :=
  match m with
  | mkRun w (Ok a) =>
      match f a with
      | mkRun w' o => mkRun (w ++ w') o
      end
  | mkRun w (Throw e) => mkRun w (Throw e)
  | mkRun w OutOfFuel => mkRun w OutOfFuel
  end.

#[export] Instance Run_mret : MRet Run := @Run_ret.
#[export] Instance Run_mbind : MBind Run := @Run_bind.

Definition throw {A} (e : Thrown) : Run A := mkRun [] (Throw e).
Definition out_of_fuel {A} : Run A := mkRun [] OutOfFuel.

(** A settled promise. *)
Inductive Promise (A : Type) :=
| Fulfilled (a : A)
| Rejected (e : Thrown).
Arguments Fulfilled {A} a.
Arguments Rejected {A} e.

(** [p.then(f)] *)
Definition Promise_then {A B} (p : Promise A) (f : A -> Promise B) : Promise B :=
  match p with
  | Fulfilled a => f a
  | Rejected e => Rejected e
  end.

(** [p.catch(f)] *)
Definition Promise_catch {A} (p : Promise A) (f : Thrown -> Promise A) : Promise A :=
  match p with
  | Fulfilled a => Fulfilled a
  | Rejected e => f e
  end.

(** [console.warn('Could not resolve field', propFieldName, dynamicFields)]:
    the diagnostic is recorded by the field it names. *)
Definition console_warn (propFieldName : string) : Run unit :=
  mkRun [propFieldName] (Ok tt).

(** [items.map(f)] with the index passed to [f], stopping at the first
    element on which [f] does not return. *)
Fixpoint imapM {A B} (f : nat -> A -> Run B) (index : nat) (items : list A)
  : Run (list B) :=
  match items with
  | [] => mret []
  | item :: rest =>
      y ← f index item;
      ys ← imapM f (S index) rest;
      mret (y :: ys)
  end.

(** A [for ... of] loop that threads [acc] and stops at the first throw. *)
Fixpoint foldM {A B} (f : B -> A -> Run B) (acc : B) (l : list A) : Run B :=
  match l with
  | [] => mret acc
  | x :: rest => acc' ← f acc x; foldM f acc' rest
  end.

(* ===================================================================== *)
(** * Schemas, references and dynamic fields *)
(* ===================================================================== *)

(** Modelled from the spec: the types [RequestSchema] and [ReferenceSchema]
    (imported from [@/render/playground], whose source is not part of the
    files at hand).  A schema is [object] (field name to nested schema, and
    a flag allowing additional properties), [array] (element schema),
    [string], [number], [boolean], [file], [switcher], [null], or a
    reference by name; every schema that is not a reference carries
    [isRequired]. *)
Inductive SchemaType :=
| t_string
| t_number
| t_boolean
| t_file
| t_switcher
| t_null
| t_array (items : Schema)
| t_object (properties : gmap string Schema) (additionalProperties : bool)
with RequestSchema :=
| mkSchema (type : SchemaType) (isRequired : bool)
with Schema :=
| Concrete (schema : RequestSchema)
| Reference (name : string).

Definition type (schema : RequestSchema) : SchemaType :=
  match schema with mkSchema t _ => t end.

Definition isRequired (schema : RequestSchema) : bool :=
  match schema with mkSchema _ r => r end.

(** Modelled from the spec: [resolve] (imported from
    [@/ui/playground/resolve], whose source is not part of the files at
    hand).  A schema that is not a reference is returned unchanged; a
    reference is looked up by name in the reference table, one hop; [None]
    when the name is absent from the table. *)
Definition resolve (schema : Schema) (references : gmap string RequestSchema)
  : option RequestSchema :=
  match schema with
  | Concrete s => Some s
  | Reference name => references !! name
  end.

(** What [convertValue] meets when [resolve] finds no schema: the resolver
    fails, or the first property read on the missing schema does. *)
Definition unresolved_reference : Thrown :=
  ErrorObject "TypeError" "Cannot read properties of undefined".

Definition resolved (schema : Schema) (references : gmap string RequestSchema)
  : Run RequestSchema :=
  match resolve schema references with
  | Some s => mret s
  | None => throw unresolved_reference
  end.

(** Modelled from the spec: the type [DynamicField] (imported from
    [@/ui/contexts/schema], whose source is not part of the files at hand):
    a field path is bound to a schema (kind [field]) or to an absence. *)
Inductive DynamicField :=
| DynamicField_field (schema : Schema)
| DynamicField_null.

Definition getDynamicFieldSchema (name : string)
    (dynamicFields : gmap string DynamicField) : Schema :=
  match dynamicFields !! name with
  | Some (DynamicField_field schema) => schema
  | _ => Concrete (mkSchema t_null false)
  end.

(* ===================================================================== *)
(** * [FormData] and [Headers] *)
(* ===================================================================== *)

Inductive Encoding := json | form_data.

(** An entry of a [FormData]: a file, or a string. *)
Inductive FormDataEntryValue :=
| EntryFile (name : string)
| EntryString (text : string).

(** The entry list of a [FormData], in order. *)
Abbreviation FormData := (list (string * FormDataEntryValue)).

(** [formData.append(key, v)] *)
Definition FormData_append (key : string) (v : FormDataEntryValue)
    (formData : FormData) : FormData :=
  formData ++ [(key, v)].

(** [formData.set(key, v)]: the first entry named [key] is replaced and the
    other ones removed; without one, the entry is appended. *)
Fixpoint FormData_set (key : string) (v : FormDataEntryValue)
    (formData : FormData) : FormData :=
  match formData with
  | [] => [(key, v)]
  | (k, x) :: rest =>
      if String.eqb k key
      then (k, v) :: filter (fun e => negb (String.eqb e.1 key) = true) rest
      else (k, x) :: FormData_set key v rest
  end.

(** [formData.getAll(key)] *)
Definition FormData_getAll (key : string) (formData : FormData)
  : list FormDataEntryValue :=
  (filter (fun e => String.eqb e.1 key = true) formData).*2.

(** The header list of a [Headers] object, in the order of the appends. *)
Abbreviation Headers := (list (string * string)).

(* ===================================================================== *)
(** * ECMAScript values and the primitives the playground calls *)
(* ===================================================================== *)

Section Playground.
Context {num : JsNumber}.

(** The values a playground form produces ([unknown] in the source):
    primitives, [File] handles, arrays and plain objects.  An object is the
    list of its own enumerable properties in enumeration order, each key
    occurring once. *)
Inductive Value :=
| VUndefined
| VNull
| VBool (b : bool)
| VNumber (n : number)
| VString (s : string)
| VFile (name : string)
| VArray (items : list Value)
| VObject (entries : list (string * Value)).

(** [typeof v] *)
Definition typeof (v : Value) : string :=
  match v with
  | VUndefined => "undefined"
  | VNull => "object"
  | VBool _ => "boolean"
  | VNumber _ => "number"
  | VString _ => "string"
  | VFile _ | VArray _ | VObject _ => "object"
  end.

(** ToBoolean *)
Definition truthy (v : Value) : bool :=
  match v with
  | VUndefined | VNull => false
  | VBool b => b
  | VNumber n => num_truthy n
  | VString s => negb (String.eqb s "")
  | VFile _ | VArray _ | VObject _ => true
  end.

Definition Array_isArray (v : Value) : bool :=
  match v with VArray _ => true | _ => false end.

(** [v instanceof File] *)
Definition instanceof_File (v : Value) : bool :=
  match v with VFile _ => true | _ => false end.

(** [String(index)] for an array index. *)
Definition String_of_index (index : nat) : string :=
  NilZero.string_of_uint (Nat.to_uint index).

(** The own enumerable string-keyed properties of a value of type object:
    the indices of an array, the entries of a plain object, none for a
    [File]. *)
Definition own_entries (v : Value) : list (string * Value) :=
  match v with
  | VArray items => imap (fun i x => (String_of_index i, x)) items
  | VObject entries => entries
  | _ => []
  end.

Definition Object_keys (v : Value) : list string := (own_entries v).*1.

(** [v[key]] *)
Definition get_prop (v : Value) (key : string) : Value :=
  match list_find (fun e => e.1 = key) (own_entries v) with
  | Some (_, e) => e.2
  | None => VUndefined
  end.

(** CreateDataProperty on a plain object: overwrite in place or append. *)
Fixpoint obj_set (key : string) (v : Value) (entries : list (string * Value))
  : list (string * Value) :=
  match entries with
  | [] => [(key, v)]
  | (k, x) :: rest =>
      if String.eqb k key then (k, v) :: rest else (k, x) :: obj_set key v rest
  end.

Definition Object_fromEntries (entries : list (string * Value)) : Value :=
  VObject (fold_left (fun o e => obj_set e.1 e.2 o) entries []).

(** [String(v)] (ToString; arrays through [Array.prototype.join]). *)
Fixpoint js_String (v : Value) : string :=
  match v with
  | VUndefined => "undefined"
  | VNull => "null"
  | VBool b => if b then "true" else "false"
  | VNumber n => NumberToString n
  | VString s => s
  | VFile _ => "[object File]"
  | VArray items =>
      String.concat ","
        (map (fun x => match x with
                       | VUndefined | VNull => ""
                       | _ => js_String x
                       end) items)
  | VObject _ => "[object Object]"
  end.

(** [Number(v)] (ToNumber; objects through their string form). *)
Definition js_Number (v : Value) : number :=
  match v with
  | VUndefined => num_NaN
  | VNull => num_zero
  | VBool b => if b then num_one else num_zero
  | VNumber n => n
  | VString s => StringToNumber s
  | VFile _ | VArray _ | VObject _ => StringToNumber (js_String v)
  end.

(* ===================================================================== *)
(** * JSON text: [JSON.stringify] and a reader for the JSON grammar *)
(* ===================================================================== *)

(** QuoteJSONString (ECMA-262 25.5.2.3) on one code unit. *)
Definition escape_char (c : ascii) : string :=
  if (c =? dquote)%char then String backslash (String dquote "")
  else if (c =? backslash)%char then String backslash (String backslash "")
  else if (c =? "008")%char then String backslash "b"
  else if (c =? "009")%char then String backslash "t"
  else if (c =? "010")%char then String backslash "n"
  else if (c =? "012")%char then String backslash "f"
  else if (c =? "013")%char then String backslash "r"
  else if is_control c then
    String backslash
      (String "u" (String "0" (String "0"
        (String (hex_digit (N_of_ascii c / 16))
          (String (hex_digit (N_of_ascii c mod 16)) "")))))
  else String c "".

Fixpoint escape_string (s : string) : string :=
  match s with
  | EmptyString => ""
  | String c r => escape_char c +:+ escape_string r
  end.

Definition QuoteJSONString (s : string) : string :=
  String dquote (escape_string s +:+ String dquote "").

(** SerializeJSONProperty (ECMA-262 25.5.2.2) with no replacer and no
    indentation; [None] is the [undefined] result. *)
Fixpoint SerializeJSONProperty (v : Value) : option string :=
  match v with
  | VUndefined => None
  | VNull => Some "null"
  | VBool b => Some (if b then "true" else "false")
  | VNumber n => Some (if num_isFinite n then NumberToString n else "null")
  | VString s => Some (QuoteJSONString s)
  | VFile _ => Some "{}"
  | VArray items =>
      Some ("[" +:+
            String.concat ","
              (map (fun x => default "null" (SerializeJSONProperty x)) items)
            +:+ "]")
  | VObject entries =>
      Some ("{" +:+
            String.concat ","
              (omap (fun e => match SerializeJSONProperty e.2 with
                              | Some t => Some (QuoteJSONString e.1 +:+ ":" +:+ t)
                              | None => None
                              end) entries)
            +:+ "}")
  end.

(** [JSON.stringify(v)] *)
Definition JSON_stringify (v : Value) : option string := SerializeJSONProperty v.

(** Parsed JSON documents; a number keeps its token. *)
Inductive Json :=
| JNull
| JBool (b : bool)
| JNumber (token : string)
| JString (s : string)
| JArray (elements : list Json)
| JObject (members : list (string * Json)).

Fixpoint skip_ws (s : string) : string :=
  match s with
  | String c r => if is_ws c then skip_ws r else s
  | EmptyString => s
  end.

Fixpoint strip_prefix (p s : string) : option string :=
  match p, s with
  | EmptyString, _ => Some s
  | String a p', String b s' => if (a =? b)%char then strip_prefix p' s' else None
  | String _ _, EmptyString => None
  end.

Definition unescape (c : ascii) : option ascii :=
  if (c =? dquote)%char then Some dquote
  else if (c =? backslash)%char then Some backslash
  else if (c =? "/")%char then Some "/"%char
  else if (c =? "b")%char then Some "008"%char
  else if (c =? "t")%char then Some "009"%char
  else if (c =? "n")%char then Some "010"%char
  else if (c =? "f")%char then Some "012"%char
  else if (c =? "r")%char then Some "013"%char
  else None.

Definition hex4 (a b c d : ascii) : option N :=
  match hex_value a, hex_value b, hex_value c, hex_value d with
  | Some x, Some y, Some z, Some w => Some (((x * 16 + y) * 16 + z) * 16 + w)%N
  | _, _, _, _ => None
  end.

(** The characters of a JSON string after its opening quote, up to and
    including the closing quote.  Strings of the model are sequences of
    code units below 256, so a [\u] escape above that is not read. *)
Fixpoint parse_chars (s : string) : option (string * string) :=
  match s with
  | EmptyString => None
  | String c r =>
      if (c =? dquote)%char then Some ("", r)
      else if (c =? backslash)%char then
        match r with
        | EmptyString => None
        | String e r1 =>
            if (e =? "u")%char then
              match r1 with
              | String h1 (String h2 (String h3 (String h4 r2))) =>
                  match hex4 h1 h2 h3 h4 with
                  | Some code =>
                      if (code <? 256)%N then
                        match parse_chars r2 with
                        | Some (t, rest) => Some (String (ascii_of_N code) t, rest)
                        | None => None
                        end
                      else None
                  | None => None
                  end
              | _ => None
              end
            else
              match unescape e with
              | Some ch =>
                  match parse_chars r1 with
                  | Some (t, rest) => Some (String ch t, rest)
                  | None => None
                  end
              | None => None
              end
        end
      else if is_control c then None
      else match parse_chars r with
           | Some (t, rest) => Some (String c t, rest)
           | None => None
           end
  end.

Definition parse_string (s : string) : option (string * string) :=
  match s with
  | String c r => if (c =? dquote)%char then parse_chars r else None
  | EmptyString => None
  end.

Fixpoint span_number (s : string) : string * string :=
  match s with
  | String c r =>
      if is_numchar c then
        let (tok, rest) := span_number r in (String c tok, rest)
      else ("", s)
  | EmptyString => ("", "")
  end.

Definition parse_number (s : string) : option (Json * string) :=
  let (tok, rest) := span_number s in
  if is_json_number tok then Some (JNumber tok, rest) else None.

(** A comma-separated, non-empty sequence of items closed by [close];
    [n] bounds the number of items. *)
Fixpoint parse_items {A} (item : string -> option (A * string)) (close : ascii)
    (n : nat) (s : string) : option (list A * string) :=
  match n with
  | O => None
  | S n' =>
      match item (skip_ws s) with
      | Some (x, r) =>
          match skip_ws r with
          | String c r' =>
              if (c =? ",")%char then
                match parse_items item close n' r' with
                | Some (xs, r'') => Some (x :: xs, r'')
                | None => None
                end
              else if (c =? close)%char then Some ([x], r')
              else None
          | EmptyString => None
          end
      | None => None
      end
  end.

(** One [string : value] member of an object. *)
Definition parse_member (value : string -> option (Json * string)) (s : string)
  : option ((string * Json) * string) :=
  match parse_string s with
  | Some (k, r) =>
      match skip_ws r with
      | String c r' =>
          if (c =? ":")%char then
            match value (skip_ws r') with
            | Some (j, r'') => Some ((k, j), r'')
            | None => None
            end
          else None
      | EmptyString => None
      end
  | None => None
  end.

(** One JSON value at the head of [s]; [fuel] bounds the nesting depth. *)
Fixpoint parse_value (fuel : nat) (s : string) : option (Json * string) :=
  match fuel with
  | O => None
  | S f =>
      match s with
      | EmptyString => None
      | String c r =>
          if (c =? "{")%char then
            match skip_ws r with
            | String c' r' =>
                if (c' =? "}")%char then Some (JObject [], r')
                else match parse_items (parse_member (parse_value f)) "}"
                             (String.length r) r with
                     | Some (ms, rest) => Some (JObject ms, rest)
                     | None => None
                     end
            | EmptyString => None
            end
          else if (c =? "[")%char then
            match skip_ws r with
            | String c' r' =>
                if (c' =? "]")%char then Some (JArray [], r')
                else match parse_items (parse_value f) "]"
                             (String.length r) r with
                     | Some (js, rest) => Some (JArray js, rest)
                     | None => None
                     end
            | EmptyString => None
            end
          else if (c =? dquote)%char then
            match parse_chars r with
            | Some (t, rest) => Some (JString t, rest)
            | None => None
            end
          else if (c =? "t")%char then
            match strip_prefix "rue" r with
            | Some rest => Some (JBool true, rest)
            | None => None
            end
          else if (c =? "f")%char then
            match strip_prefix "alse" r with
            | Some rest => Some (JBool false, rest)
            | None => None
            end
          else if (c =? "n")%char then
            match strip_prefix "ull" r with
            | Some rest => Some (JNull, rest)
            | None => None
            end
          else parse_number s
      end
  end.

(** [JSON.parse]-style reading of a whole text: one value, surrounded by
    optional white space. *)
Definition JSON_parse (s : string) : option Json :=
  match parse_value (S (String.length s)) (skip_ws s) with
  | Some (j, rest) =>
      match skip_ws rest with
      | EmptyString => Some j
      | String _ _ => None
      end
  | None => None
  end.

(** The document [JSON.stringify] writes for a value ([None] for
    [undefined], which has none). *)
Fixpoint to_json (v : Value) : option Json :=
  match v with
  | VUndefined => None
  | VNull => Some JNull
  | VBool b => Some (JBool b)
  | VNumber n => Some (if num_isFinite n then JNumber (NumberToString n) else JNull)
  | VString s => Some (JString s)
  | VFile _ => Some (JObject [])
  | VArray items => Some (JArray (map (fun x => default JNull (to_json x)) items))
  | VObject entries =>
      Some (JObject (omap (fun e => match to_json e.2 with
                                    | Some j => Some (e.1, j)
                                    | None => None
                                    end) entries))
  end.

(* ===================================================================== *)
(** * Value conversion *)
(* ===================================================================== *)

(** [value === '' || value === undefined || value === null] *)
Definition isEmpty (value : Value) : bool :=
  match value with
  | VString s => String.eqb s ""
  | VUndefined | VNull => true
  | _ => false
  end.

(** [value === s] for a string literal [s]. *)
Definition is_string (value : Value) (s : string) : bool :=
  match value with
  | VString t => String.eqb t s
  | _ => false
  end.

(** The callback of [value.map] (lines 161 to 169); [convert] is the
    recursive call. *)
Definition convertItem (convert : string -> Value -> RequestSchema -> Run Value)
    (fieldName : string) (itemSchema : Schema)
    (references : gmap string RequestSchema) (index : nat) (item : Value)
  : Run Value :=
  s ← resolved itemSchema references;
  convert (fieldName +:+ "." +:+ String_of_index index) item s.

(** The callback of [Object.keys(value).map] (lines 182 to 213). *)
Definition convertEntry (convert : string -> Value -> RequestSchema -> Run Value)
    (fieldName : string) (value : Value)
    (properties : gmap string Schema) (additionalProperties : bool)
    (references : gmap string RequestSchema)
    (dynamicFields : gmap string DynamicField) (key : string)
  : Run (string * Value) :=
  let prop := get_prop value key in
  let propFieldName := fieldName +:+ "." +:+ key in
  match properties !! key with
  | Some property =>
      s ← resolved property references;
      v ← convert propFieldName prop s;
      mret (key, v)
  | None =>
      if additionalProperties then
        s ← resolved (getDynamicFieldSchema propFieldName dynamicFields) references;
        v ← convert propFieldName prop s;
        mret (key, v)
      else
        _ ← console_warn propFieldName;
        mret (key, prop)
  end.

(** [convertValue]: the recursion is on [fuel], since the switcher branch
    calls itself on the same value. *)
Fixpoint convertValue (fuel : nat) (fieldName : string) (value : Value)
    (schema : RequestSchema) (references : gmap string RequestSchema)
    (dynamicFields : gmap string DynamicField) : Run Value :=
  match fuel with
  | O => out_of_fuel
  | S fuel' =>
      let convert := fun name v s =>
        convertValue fuel' name v s references dynamicFields in
      if isEmpty value && isRequired schema then
        mret (match type schema with
              | t_boolean => VBool false
              | _ => VString ""
              end)
      else if isEmpty value then mret VUndefined
      else
        match value, type schema with
        | VArray items, t_array itemSchema =>
            converted ←
              imapM (convertItem convert fieldName itemSchema references) 0 items;
            mret (VArray converted)
        | _, t_switcher =>
            s ← resolved (getDynamicFieldSchema fieldName dynamicFields)
                  references;
            convert fieldName value s
        | (VFile _ | VArray _ | VObject _), t_object properties additionalProperties =>
            entries ←
              mapM (convertEntry convert fieldName value properties
                      additionalProperties references dynamicFields)
                   (Object_keys value);
            mret (Object_fromEntries entries)
        | _, t_number => mret (VNumber (js_Number value))
        | _, t_boolean =>
            mret (if is_string value "null" then VUndefined
                  else VBool (is_string value "true"))
        | _, t_file => mret value
        | _, _ => mret (VString (js_String value))
        end
  end.

(* ===================================================================== *)
(** * Request bodies *)
(* ===================================================================== *)

(** The entry value [FormData] stores for an argument: a [File] as it is,
    anything else converted to a string. *)
Definition entry_of (v : Value) : FormDataEntryValue :=
  match v with
  | VFile name => EntryFile name
  | _ => EntryString (js_String v)
  end.

(** What [createBodyFromValue] returns: a string, a [FormData], or
    [undefined] (when [JSON.stringify] returns it). *)
Inductive Body :=
| BodyString (text : string)
| BodyFormData (formData : FormData)
| BodyUndefined.

Definition array_items (v : Value) : list Value :=
  match v with VArray items => items | _ => [] end.

(** The body of the loop [for (const key of Object.keys(result))]. *)
Definition append_property (result : Value) (formData : FormData) (key : string)
  : FormData :=
  let prop := get_prop result key in
  let formData :=
    if String.eqb (typeof prop) "object" && instanceof_File prop
    then FormData_set key (entry_of prop) formData
    else formData in
  let formData :=
    if Array_isArray prop && forallb instanceof_File (array_items prop)
    then fold_left (fun fd item => FormData_append key (entry_of item) fd)
                   (array_items prop) formData
    else formData in
  if truthy prop && negb (instanceof_File prop)
  then FormData_set key
         (EntryString (default "undefined" (JSON_stringify prop))) formData
  else formData.

Definition unsupported_body (result : Value) : Thrown :=
  ErrorObject "Error"
    ("Unsupported body type: " +:+ typeof result +:+ ", expected: object").

Definition createBodyFromValue (fuel : nat) (type : Encoding) (value : Value)
    (schema : RequestSchema) (references : gmap string RequestSchema)
    (dynamicFields : gmap string DynamicField) : Run Body :=
  result ← convertValue fuel "body" value schema references dynamicFields;
  match type with
  | json =>
      mret (match JSON_stringify result with
            | Some text => BodyString text
            | None => BodyUndefined
            end)
  | form_data =>
      if negb (String.eqb (typeof result) "object") || negb (truthy result)
      then throw (unsupported_body result)
      else mret (BodyFormData
                   (fold_left (append_property result) (Object_keys result) []))
  end.

(* ===================================================================== *)
(** * The browser-side fetcher *)
(* ===================================================================== *)

Record FetchOptions := {
  input_url : string;
  input_method : string;
  input_type : Encoding;
  input_header : list (string * Value);
  (** [undefined] when absent *)
  input_body : Value;
  input_dynamicFields : option (gmap string DynamicField)
}.

Inductive ResultType := type_json | type_html | type_text.

Record FetchResult := {
  status : N;
  result_type : ResultType;
  data : Value
}.

Record Request := {
  req_url : string;
  req_method : string;
  req_headers : Headers;
  req_body : Body;
  (** [AbortSignal.timeout(ms)] *)
  req_timeout : N
}.

Record Response := {
  res_status : N;
  (** [res.headers.get('Content-Type')] *)
  res_content_type : option string;
  (** [res.json()] and [res.text()], settled *)
  res_json : Promise Value;
  res_text : Promise string
}.

(** The browser the fetcher runs in: which header names and values
    [Headers.append] accepts (it throws a [TypeError] on the others), and
    how the network answers a request, an abort by the timeout signal
    included. *)
Record Browser := {
  header_accepted : string -> string -> bool;
  window_fetch : Request -> Promise Response
}.

Definition Headers_append (browser : Browser) (headers : Headers)
    (name value : string) : Run Headers :=
  if header_accepted browser name value
  then mret (headers ++ [(name, value)])
  else throw (ErrorObject "TypeError" "Invalid header").

(** The headers of the request: lines 40 to 49 of the source. *)
Definition request_headers (browser : Browser) (input : FetchOptions) : Run Headers :=
  headers ←
    match input_type input with
    | form_data => mret []
    | json => Headers_append browser [] "Content-Type" "application/json"
    end;
  foldM (fun headers key =>
            match get_prop (VObject (input_header input)) key with
            | VString paramValue =>
                if 0 <? String.length paramValue
                then Headers_append browser headers key paramValue
                else mret headers
            | _ => mret headers
            end)
         headers (Object_keys (VObject (input_header input))).

(** The [then] callback: lines 65 to 79. *)
Definition read_response (res : Response) : Promise FetchResult :=
  let contentType := default "" (res_content_type res) in
  if String.prefix "application/json" contentType then
    Promise_then (res_json res) (fun data =>
      Fulfilled {| status := res_status res; result_type := type_json; data := data |})
  else
    let type := if String.prefix "text/html" contentType
                then type_html else type_text in
    Promise_then (res_text res) (fun data =>
      Fulfilled {| status := res_status res; result_type := type;
                   data := VString data |}).

(** The message of the [catch] callback: lines 81 and 82. *)
Definition error_message (e : Thrown) : string :=
  match e with
  | ErrorObject name message => "[" +:+ name +:+ "] " +:+ message
  | NonError text => text
  end.

(** The [catch] callback: lines 80 to 89. *)
Definition client_side_error (e : Thrown) : Promise FetchResult :=
  Fulfilled {| status := 400%N; result_type := type_text;
               data := VString ("Client side error: " +:+ error_message e) |}.

(** How an [async] function's promise settles once the code before its
    first promise has run. *)
Definition settle {A} (p : Promise A) : Run A :=
  match p with
  | Fulfilled a => mret a
  | Rejected e => throw e
  end.

(** The [body] of the request init: lines 54 to 62. *)
Definition request_body (fuel : nat) (bodySchema : option RequestSchema)
    (references : gmap string RequestSchema) (input : FetchOptions) : Run Body :=
  match bodySchema with
  | Some schema =>
      createBodyFromValue fuel (input_type input) (input_body input)
        schema references (default ∅ (input_dynamicFields input))
  | None => mret BodyUndefined
  end.

(** The arguments of the call of [fetch]: lines 51 to 64. *)
Definition fetch_request (input : FetchOptions) (headers : Headers) (body : Body)
  : Request :=
  {| req_url := input_url input;
     req_method := input_method input;
     req_headers := headers;
     req_body := body;
     req_timeout := 6000%N |}.

Record Fetcher := {
  (** [Ok] is a fulfilled promise, [Throw] a rejected one. *)
  fetch : FetchOptions -> Run FetchResult
}.

Definition createBrowserFetcher (browser : Browser) (fuel : nat)
    (bodySchema : option RequestSchema)
    (references : gmap string RequestSchema) : Fetcher :=
  {| fetch := fun input =>
       headers ← request_headers browser input;
       body ← request_body fuel bodySchema references input;
       settle
         (Promise_catch
            (Promise_then
               (window_fetch browser (fetch_request input headers body))
               read_response)
            client_side_error) |}.


(* ===================================================================== *)
(** * Measures and conditions used by the properties *)
(* ===================================================================== *)

(** The entries the loop leaves under [key] for the property value [prop]:
    what the last [set] wrote, or nothing. *)
Definition entries_of_property (prop : Value) : list FormDataEntryValue :=
  if truthy prop && negb (instanceof_File prop)
  then [EntryString (default "undefined" (JSON_stringify prop))]
  else if instanceof_File prop then [entry_of prop]
  else [].

(** The nesting depth of a value: 0 for a primitive or a [File]. *)
Fixpoint depth (v : Value) : nat :=
  match v with
  | VArray items => S (foldr (fun x d => Nat.max (depth x) d) 0 items)
  | VObject entries => S (foldr (fun e d => Nat.max (depth e.2) d) 0 entries)
  | _ => 0
  end.

Definition is_switcher (t : SchemaType) : bool :=
  match t with t_switcher => true | _ => false end.

Definition resolves_to_switcher (references : gmap string RequestSchema)
    (field : DynamicField) : bool :=
  match field with
  | DynamicField_field schema =>
      match resolve schema references with
      | Some s => is_switcher (type s)
      | None => false
      end
  | DynamicField_null => false
  end.

(** No dynamic field is bound to a schema that resolves to a switcher. *)
Definition switcher_free (references : gmap string RequestSchema)
    (dynamicFields : gmap string DynamicField) : Prop :=
  map_Forall (fun _ field => resolves_to_switcher references field = false)
             dynamicFields.

(** A computation that some amount of fuel sees the end of. *)
Definition terminates {A} (run : nat -> Run A) : Prop :=
  exists fuel, outcome (run fuel) <> OutOfFuel.

(** [undefined], the one value [JSON.stringify] has no text for. *)
Definition is_undefined (v : Value) : bool :=
  match v with VUndefined => true | _ => false end.

(** The text of a value inside an array or an object member, and the
    document it denotes. *)
Definition json_text (v : Value) : string := default "null" (SerializeJSONProperty v).
Definition json_doc (v : Value) : Json := default JNull (to_json v).

(** What may follow a value in a JSON text: the end, or [,], [\]], [}]. *)
Definition delimited (rest : string) : bool :=
  match rest with
  | EmptyString => true
  | String c _ => ((c =? ",") || (c =? "]") || (c =? "}"))%char
  end.

(** The characters a JSON value can start with. *)
Definition value_start (c : ascii) : bool :=
  (is_digit c || (c =? "-") || (c =? "{") || (c =? "[") || (c =? dquote)
   || (c =? "t") || (c =? "f") || (c =? "n"))%char.

(** The entries of an object that [JSON.stringify] writes. *)
Definition present (entries : list (string * Value)) : list (string * Value) :=
  filter (fun e => is_undefined e.2 = false) entries.

Definition member_text (e : string * Value) : string :=
  QuoteJSONString e.1 +:+ ":" +:+ json_text e.2.


End Playground.

(* ===================================================================== *)
(** * Concrete schemas, values and browsers *)
(* ===================================================================== *)

Section Examples.
#[local] Existing Instance IntNumbers.

Definition required (t : SchemaType) : Schema := Concrete (mkSchema t true).
Definition optional (t : SchemaType) : Schema := Concrete (mkSchema t false).

(** [{a: string, b?: number}] *)
Definition ab_schema : RequestSchema :=
  mkSchema
    (t_object (list_to_map [("a", required t_string); ("b", optional t_number)])
       false)
    true.

Definition ab_value : Value := VObject [("a", VString "x"); ("b", VString "")].

(** An upload form: a file, a list of files, and two required fields. *)
Definition upload_schema : RequestSchema :=
  mkSchema
    (t_object
       (list_to_map
          [("avatar", required t_file);
           ("files", required (t_array (required t_file)));
           ("public", required t_boolean);
           ("title", required t_string)])
       false)
    true.

Definition upload_value : Value :=
  VObject [("avatar", VFile "me.png");
           ("files", VArray [VFile "a.txt"; VFile "b.txt"]);
           ("public", VString "");
           ("title", VString "")].

Definition upload_converted : Value :=
  VObject [("avatar", VFile "me.png");
           ("files", VArray [VFile "a.txt"; VFile "b.txt"]);
           ("public", VBool false);
           ("title", VString "")].

(** An array of optional numbers, the items given by reference. *)
Definition numbers_schema : RequestSchema :=
  mkSchema (t_array (Reference "Count")) true.

Definition numbers_references : gmap string RequestSchema :=
  {[ "Count" := mkSchema t_number false ]}.

Definition numbers_value : list Value := [VString "1"; VString ""; VString "30"].

(** A switcher field, and dynamic fields that bind it to a number or to a
    switcher again. *)
Definition switcher_schema : RequestSchema := mkSchema t_switcher true.

Definition kind_schema : RequestSchema :=
  mkSchema (t_object (list_to_map [("kind", Concrete switcher_schema)]) false) true.

Definition kind_value : Value := VObject [("kind", VString "42")].

Definition kind_fields : gmap string DynamicField :=
  {[ "body.kind" := DynamicField_field (required t_number) ]}.

Definition looping_fields : gmap string DynamicField :=
  {[ "body" := DynamicField_field (Concrete switcher_schema) ]}.

(** A browser whose network call is aborted by the timeout signal. *)
Definition timing_out : Browser :=
  {| header_accepted := fun _ _ => true;
     window_fetch := fun _ =>
       Rejected (ErrorObject "TimeoutError" "signal timed out") |}.

Definition json_input : FetchOptions :=
  {| input_url := "https://example.com/items";
     input_method := "POST";
     input_type := json;
     input_header := [("Authorization", VString "Bearer t"); ("X-Empty", VString "")];
     input_body := ab_value;
     input_dynamicFields := None |}.

(** A form-data request with no body value. *)
Definition empty_form_input : FetchOptions :=
  {| input_url := "https://example.com/upload";
     input_method := "POST";
     input_type := form_data;
     input_header := [];
     input_body := VUndefined;
     input_dynamicFields := None |}.

End Examples.

Section MoreExamples.
#[local] Existing Instance IntNumbers.

(** [{a: "x", note: ""}]: the key ["note"] is not declared by [ab_schema]. *)
Definition noted_value : Value :=
  VObject [("a", VString "x"); ("note", VString "")].

(** [{a: string}] with additional properties allowed. *)
Definition open_schema : RequestSchema :=
  mkSchema (t_object (list_to_map [("a", required t_string)]) true) true.

Definition open_value : Value :=
  VObject [("a", VString "x"); ("n", VNumber (IInt 7)); ("e", VString "")].

Definition seven : Value := VNumber (IInt 7).


(** A browser whose server answers 201 with a JSON document. *)
Definition creating : Browser :=
  {| header_accepted := fun _ _ => true;
     window_fetch := fun _ =>
       Fulfilled {| res_status := 201%N;
                    res_content_type := Some "application/json; charset=utf-8";
                    res_json := Fulfilled (VObject [("id", VNumber (IInt 1))]);
                    res_text := Rejected (NonError "body stream already read") |} |}.

End MoreExamples.

(* ===================================================================== *)
(** * Properties *)
(* ===================================================================== *)

Section Properties.
Context {num : JsNumber}.

(** ** Runs *)

Lemma outcome_bind {A B} (m : Run A) (f : A -> Run B) :
  outcome (m ≫= f) =
  match outcome m with
  | Ok a => outcome (f a)
  | Throw e => Throw e
  | OutOfFuel => OutOfFuel
  end.
Proof.
  unfold mbind, Run_mbind, Run_bind.
  destruct m as [w [a|e|]]; simpl; try reflexivity.
  destruct (f a); reflexivity.
Qed.

Lemma outcome_ret {A} (a : A) : outcome (mret a : Run A) = Ok a.
Proof. reflexivity. Qed.

Lemma bind_ret_l {A B} (a : A) (f : A -> Run B) : (mret a ≫= f) = f a.
Proof.
  unfold mbind, Run_mbind, Run_bind, mret, Run_mret, Run_ret.
  destruct (f a); reflexivity.
Qed.

Lemma outcome_bind_Ok {A B} (m : Run A) (f : A -> Run B) (b : B) :
  outcome (m ≫= f) = Ok b <->
  exists a, outcome m = Ok a /\ outcome (f a) = Ok b.
Proof.
  rewrite outcome_bind. destruct (outcome m) as [a|e|].
  - split; [eauto|]. intros (a' & Ha & Hb). by simplify_eq.
  - split; [done|]. by intros (a' & Ha & Hb).
  - split; [done|]. by intros (a' & Ha & Hb).
Qed.

Lemma outcome_resolved schema references :
  outcome (resolved schema references) =
  match resolve schema references with
  | Some s => Ok s
  | None => Throw unresolved_reference
  end.
Proof. unfold resolved. by destruct (resolve schema references). Qed.

(** [imapM] returns exactly when the callback returns on every element,
    and then with the callback's results in order. *)
Lemma outcome_imapM_Ok {A B} (f : nat -> A -> Run B) index items out :
  outcome (imapM f index items) = Ok out <->
  Forall2 (fun ix y => outcome (f ix.1 ix.2) = Ok y)
          (imap (fun i x => (index + i, x)) items) out.
Proof.
  revert index out. induction items as [|item rest IH]; intros index out; simpl.
  - split.
    + intros [= <-]. constructor.
    + intros H. by inversion H.
  - rewrite outcome_bind_Ok. split.
    + intros (y & Hy & H). apply outcome_bind_Ok in H as (ys & Hys & H).
      injection H as <-. constructor.
      * simpl. by rewrite Nat.add_0_r.
      * apply IH in Hys. erewrite imap_ext; [exact Hys|].
        intros i x _. simpl. f_equal. lia.
    + intros H. inversion H as [|? y ? ys Hy Hys]; subst.
      simpl in Hy. rewrite Nat.add_0_r in Hy.
      exists y. split; [done|]. apply outcome_bind_Ok.
      exists ys. split; [|done]. apply IH.
      erewrite imap_ext; [exact Hys|].
      intros i x _. simpl. f_equal. lia.
Qed.

Lemma outcome_mapM_Ok {A B} (f : A -> Run B) l out :
  outcome (mapM f l) = Ok out <->
  Forall2 (fun x y => outcome (f x) = Ok y) l out.
Proof.
  revert out. induction l as [|x l IH]; intros out; simpl.
  - split.
    + intros [= <-]. constructor.
    + intros H. by inversion H.
  - rewrite outcome_bind_Ok. split.
    + intros (y & Hy & H). apply outcome_bind_Ok in H as (ys & Hys & H).
      injection H as <-. constructor; [done|]. by apply IH.
    + intros H. inversion H as [|? y ? ys Hy Hys]; subst.
      exists y. split; [done|]. apply outcome_bind_Ok.
      exists ys. split; [|done]. by apply IH.
Qed.

(** ** Value conversion: empty values and primitives *)

Lemma is_string_spec (value : Value) (s : string) :
  is_string value s = true <-> value = VString s.
Proof.
  destruct value; simpl; try (split; [discriminate|congruence]).
  rewrite String.eqb_eq. split; congruence.
Qed.

Lemma isEmpty_spec (value : Value) :
  isEmpty value = true <->
  value = VString "" \/ value = VUndefined \/ value = VNull.
Proof.
  destruct value; simpl; try (split; [auto; discriminate | intros [|[|]]; congruence]).
  rewrite String.eqb_eq. split; [intros ->; auto | intros [|[|]]; congruence].
Qed.

(** C4. A field whose raw value is empty (the empty string, [undefined] or
    [null]) and whose schema is required converts to [false] when the
    schema type is [boolean] and to the empty string otherwise; it never
    converts to the absent marker [undefined]. *)
Theorem convertValue_empty_required fuel fieldName value schema references dynamicFields :
  isEmpty value = true ->
  isRequired schema = true ->
  exists r,
    convertValue (S fuel) fieldName value schema references dynamicFields = mret r /\
    (type schema = t_boolean -> r = VBool false) /\
    (type schema <> t_boolean -> r = VString "") /\
    r <> VUndefined.
Proof.
  intros Hempty Hreq. simpl. rewrite Hempty, Hreq. simpl.
  eexists. split; [reflexivity|].
  destruct (type schema); repeat split; congruence.
Qed.

(** First half of C5: an empty value under a schema that is not required
    converts to the absent marker. *)
Lemma convertValue_empty_optional fuel fieldName value schema references dynamicFields :
  isEmpty value = true ->
  isRequired schema = false ->
  convertValue (S fuel) fieldName value schema references dynamicFields = mret VUndefined.
Proof. intros Hempty Hreq. simpl. by rewrite Hempty, Hreq. Qed.

(** C8. A non-empty value under a [boolean] schema converts to [true] only
    if it is the string ["true"], to [undefined] if it is the string
    ["null"], and to [false] in every other case, the boolean [true]
    included. *)
Theorem convertValue_boolean fuel fieldName value schema references dynamicFields :
  isEmpty value = false ->
  type schema = t_boolean ->
  exists r,
    convertValue (S fuel) fieldName value schema references dynamicFields = mret r /\
    (r = VBool true <-> value = VString "true") /\
    (r = VUndefined <-> value = VString "null") /\
    (value <> VString "true" -> value <> VString "null" -> r = VBool false) /\
    (value = VBool true -> r = VBool false).
Proof.
  intros Hempty Hty.
  exists (if is_string value "null" then VUndefined
          else VBool (is_string value "true")).
  split.
  { simpl. rewrite Hempty, Hty. simpl. by destruct value. }
  destruct (is_string value "null") eqn:Hnull.
  - apply is_string_spec in Hnull as ->. simpl.
    repeat split; try done; try congruence.
  - destruct (is_string value "true") eqn:Htrue.
    + apply is_string_spec in Htrue as ->.
      repeat split; try done; try congruence.
    + assert (value <> VString "null").
      { intros ->. simpl in Hnull. discriminate. }
      assert (value <> VString "true").
      { intros ->. simpl in Htrue. discriminate. }
      repeat split; try done; try congruence.
Qed.


(** ** Value conversion: arrays *)

(** C6. Under an [array] schema, a sequence of length N converts to a
    sequence of length N whose element [i] is the conversion of the raw
    element [i] against the resolved item schema, under the field path
    extended by ["."] and the decimal index [i]: the conversion returns
    such a sequence whenever the conversions of the elements return, and it
    returns nothing else. *)
Theorem convertValue_array fuel fieldName items schema itemSchema references dynamicFields :
  type schema = t_array itemSchema ->
  (forall r,
     outcome (convertValue (S fuel) fieldName (VArray items) schema
                references dynamicFields) = Ok r ->
     exists out, r = VArray out) /\
  (forall out,
     outcome (convertValue (S fuel) fieldName (VArray items) schema
                references dynamicFields) = Ok (VArray out) <->
     length out = length items /\
     forall i item, items !! i = Some item ->
       exists s y,
         resolve itemSchema references = Some s /\
         out !! i = Some y /\
         outcome (convertValue fuel (fieldName +:+ "." +:+ String_of_index i)
                    item s references dynamicFields) = Ok y).
Proof.
  intros Hty.
  assert (Hstep : forall r,
    outcome (convertValue (S fuel) fieldName (VArray items) schema
               references dynamicFields) = Ok r <->
    exists out, r = VArray out /\
      Forall2 (fun ix y =>
                 outcome (convertItem
                            (fun name v s =>
                               convertValue fuel name v s references dynamicFields)
                            fieldName itemSchema references ix.1 ix.2) = Ok y)
              (imap (fun i x => (0 + i, x)) items) out).
  { intros r. simpl. rewrite Hty. rewrite outcome_bind_Ok. split.
    - intros (out & Hout & [= <-]). exists out. split; [done|].
      by apply outcome_imapM_Ok in Hout.
    - intros (out & -> & Hout). exists out. split; [|done].
      by apply outcome_imapM_Ok. }
  split.
  - intros r Hr. apply Hstep in Hr as (out & -> & _). eauto.
  - intros out. rewrite Hstep. split.
    + intros (out' & [= <-] & Hall).
      pose proof (Forall2_length _ _ _ Hall) as Hlen.
      rewrite length_imap in Hlen. split; [done|].
      intros i item Hi.
      destruct (lookup_lt_is_Some_2 out i) as [y Hy].
      { rewrite <- Hlen. by eapply lookup_lt_Some. }
      eapply Forall2_lookup_lr in Hall; [| |exact Hy]; last first.
      { rewrite list_lookup_imap, Hi. reflexivity. }
      simpl in Hall. unfold convertItem in Hall.
      apply outcome_bind_Ok in Hall as (s & Hs & Hconv).
      rewrite outcome_resolved in Hs.
      destruct (resolve itemSchema references) as [s'|]; [|done].
      injection Hs as ->. eauto.
    + intros [Hlen Hall]. exists out. split; [done|].
      apply Forall2_same_length_lookup. split.
      { by rewrite length_imap. }
      intros i [j item] y Hi Hy.
      rewrite list_lookup_imap in Hi.
      destruct (items !! i) as [item'|] eqn:Hitem; [|done].
      simpl in Hi. injection Hi as <- <-.
      destruct (Hall i item' Hitem) as (s & y' & Hs & Hy' & Hconv).
      simplify_eq. simpl. unfold convertItem.
      apply outcome_bind_Ok. exists s. split; [|done].
      by rewrite outcome_resolved, Hs.
Qed.

(** ** Form-data bodies *)

Lemma FormData_getAll_cons key k x (formData : FormData) :
  FormData_getAll key ((k, x) :: formData) =
  if String.eqb k key then x :: FormData_getAll key formData
  else FormData_getAll key formData.
Proof.
  unfold FormData_getAll. rewrite filter_cons. simpl.
  destruct (String.eqb k key); by case_decide.
Qed.

Lemma FormData_getAll_app key (fd1 fd2 : FormData) :
  FormData_getAll key (fd1 ++ fd2) =
  FormData_getAll key fd1 ++ FormData_getAll key fd2.
Proof. unfold FormData_getAll. by rewrite filter_app, fmap_app. Qed.

Lemma FormData_getAll_removed key (formData : FormData) :
  FormData_getAll key
    (filter (fun e => negb (String.eqb e.1 key) = true) formData) = [].
Proof.
  induction formData as [|[k x] rest IH]; [done|].
  rewrite filter_cons. simpl. destruct (String.eqb k key) eqn:Hk; simpl.
  - exact IH.
  - rewrite FormData_getAll_cons, Hk. exact IH.
Qed.

Lemma FormData_getAll_kept key key' (formData : FormData) :
  key' <> key ->
  FormData_getAll key
    (filter (fun e => negb (String.eqb e.1 key') = true) formData) =
  FormData_getAll key formData.
Proof.
  intros Hne. induction formData as [|[k x] rest IH]; [done|].
  rewrite filter_cons. simpl. destruct (String.eqb k key') eqn:Hk; simpl.
  - apply String.eqb_eq in Hk as ->.
    rewrite FormData_getAll_cons.
    apply String.eqb_neq in Hne. by rewrite Hne.
  - rewrite !FormData_getAll_cons.
    destruct (String.eqb k key); by rewrite IH.
Qed.

(** [set] leaves exactly one entry under its key... *)
Lemma FormData_getAll_set key v (formData : FormData) :
  FormData_getAll key (FormData_set key v formData) = [v].
Proof.
  induction formData as [|[k x] rest IH]; simpl.
  - by rewrite FormData_getAll_cons, String.eqb_refl.
  - destruct (String.eqb k key) eqn:Hk.
    + by rewrite FormData_getAll_cons, Hk, FormData_getAll_removed.
    + by rewrite FormData_getAll_cons, Hk.
Qed.

(** ...and does not touch the entries under another key. *)
Lemma FormData_getAll_set_ne key key' v (formData : FormData) :
  key' <> key ->
  FormData_getAll key (FormData_set key' v formData) =
  FormData_getAll key formData.
Proof.
  intros Hne. induction formData as [|[k x] rest IH]; simpl.
  - rewrite FormData_getAll_cons.
    apply String.eqb_neq in Hne. by rewrite Hne.
  - destruct (String.eqb k key') eqn:Hk.
    + apply String.eqb_eq in Hk as ->.
      rewrite !FormData_getAll_cons.
      apply String.eqb_neq in Hne as Hne'. rewrite Hne'.
      by apply FormData_getAll_kept.
    + rewrite !FormData_getAll_cons. destruct (String.eqb k key); by rewrite IH.
Qed.

Lemma FormData_getAll_appends_ne key key' (items : list Value) (formData : FormData) :
  key' <> key ->
  FormData_getAll key
    (fold_left (fun fd item => FormData_append key' (entry_of item) fd)
       items formData) =
  FormData_getAll key formData.
Proof.
  intros Hne. revert formData.
  induction items as [|item rest IH]; intros formData; simpl; [done|].
  rewrite IH. unfold FormData_append.
  rewrite FormData_getAll_app, FormData_getAll_cons.
  apply String.eqb_neq in Hne. rewrite Hne. apply app_nil_r.
Qed.

Lemma append_property_other result (formData : FormData) key key' :
  key' <> key ->
  FormData_getAll key (append_property result formData key') =
  FormData_getAll key formData.
Proof.
  intros Hne. unfold append_property.
  repeat match goal with
  | |- context [if ?b then _ else _] => destruct b
  end;
  rewrite ?FormData_getAll_set_ne, ?FormData_getAll_appends_ne,
    ?FormData_getAll_set_ne by done; done.
Qed.

Lemma append_property_same result (formData : FormData) key :
  FormData_getAll key formData = [] \/
  FormData_getAll key formData = entries_of_property (get_prop result key) ->
  FormData_getAll key (append_property result formData key) =
  entries_of_property (get_prop result key).
Proof.
  intros Hbefore. unfold append_property, entries_of_property in *.
  destruct (get_prop result key) as [| |b|n|s|name|items|entries] eqn:Hprop;
    simpl in *; try (destruct Hbefore as [->| ->]; done);
    rewrite ?FormData_getAll_set; try done.
  - destruct b; simpl in *; rewrite ?FormData_getAll_set; try done.
    by destruct Hbefore as [->| ->].
  - destruct (num_truthy n); simpl in *; rewrite ?FormData_getAll_set; try done.
    by destruct Hbefore as [->| ->].
  - destruct (String.eqb s ""); simpl in *; rewrite ?FormData_getAll_set; try done.
    by destruct Hbefore as [->| ->].
Qed.

Lemma form_data_entries result (keys : list string) key :
  FormData_getAll key (fold_left (append_property result) keys []) =
  if decide (key ∈ keys) then entries_of_property (get_prop result key) else [].
Proof.
  induction keys as [|k keys IH] using rev_ind; [done|].
  rewrite fold_left_app. simpl.
  destruct (decide (k = key)) as [->|Hne].
  - rewrite decide_True by (apply elem_of_app; right; apply list_elem_of_singleton; done).
    apply append_property_same. rewrite IH. case_decide; auto.
  - rewrite append_property_other by done. rewrite IH.
    destruct (decide (key ∈ keys)) as [Hin|Hnin].
    + rewrite decide_True; [done|]. apply elem_of_app. by left.
    + rewrite decide_False; [done|].
      intros [?|Hk%list_elem_of_singleton]%elem_of_app; congruence.
Qed.

Lemma createBodyFromValue_form_data fuel value schema references dynamicFields :
  outcome (createBodyFromValue fuel form_data value schema references dynamicFields) =
  match outcome (convertValue fuel "body" value schema references dynamicFields) with
  | Ok result =>
      if negb (String.eqb (typeof result) "object") || negb (truthy result)
      then Throw (unsupported_body result)
      else Ok (BodyFormData
                 (fold_left (append_property result) (Object_keys result) []))
  | Throw e => Throw e
  | OutOfFuel => OutOfFuel
  end.
Proof.
  unfold createBodyFromValue. rewrite outcome_bind.
  destruct (outcome (convertValue _ _ _ _ _ _)) as [result| |]; try done.
  by destruct (negb _ || negb _).
Qed.

(** C9. With encoding [form-data], a converted root value that is not an
    object ([typeof] other than ["object"], or [null]) makes the operation
    throw an [Error] whose message names the [typeof] of the converted
    value; no [FormData] is returned. *)
Theorem createBodyFromValue_form_data_not_object
    fuel value schema references dynamicFields result :
  outcome (convertValue fuel "body" value schema references dynamicFields) = Ok result ->
  typeof result <> "object" \/ truthy result = false ->
  outcome (createBodyFromValue fuel form_data value schema references dynamicFields) =
    Throw (ErrorObject "Error"
             ("Unsupported body type: " +:+ typeof result +:+ ", expected: object")) /\
  forall formData,
    outcome (createBodyFromValue fuel form_data value schema references dynamicFields)
    <> Ok (BodyFormData formData).
Proof.
  intros Hconv Hnot.
  assert (H : outcome (createBodyFromValue fuel form_data value schema
                         references dynamicFields) =
              Throw (unsupported_body result)).
  { rewrite createBodyFromValue_form_data, Hconv.
    destruct Hnot as [Hty|Hfalsy].
    - apply String.eqb_neq in Hty. by rewrite Hty.
    - rewrite Hfalsy. simpl. by rewrite orb_true_r. }
  split; [exact H|]. intros formData. by rewrite H.
Qed.

(** C10. In a form-data body, a top-level key whose converted value is
    falsy (and hence not a [File]) has no entry in the resulting
    [FormData]; this holds for the [false] and the empty string that
    conversion substitutes for required empty fields. *)
Theorem createBodyFromValue_form_data_omits_falsy
    fuel value schema references dynamicFields formData :
  outcome (createBodyFromValue fuel form_data value schema references dynamicFields) =
    Ok (BodyFormData formData) ->
  exists result,
    outcome (convertValue fuel "body" value schema references dynamicFields) = Ok result /\
    (forall key, truthy (get_prop result key) = false ->
       FormData_getAll key formData = []) /\
    (forall key,
       get_prop result key = VBool false \/ get_prop result key = VString "" ->
       FormData_getAll key formData = []).
Proof.
  rewrite createBodyFromValue_form_data.
  destruct (outcome (convertValue _ _ _ _ _ _)) as [result| |]; try done.
  destruct (negb _ || negb _); [done|]. intros [= <-].
  exists result. split; [done|].
  assert (Hfalsy : forall key, truthy (get_prop result key) = false ->
    FormData_getAll key
      (fold_left (append_property result) (Object_keys result) []) = []).
  { intros key Hkey. rewrite form_data_entries. case_decide; [|done].
    unfold entries_of_property. rewrite Hkey. simpl.
    by destruct (get_prop result key). }
  split; [exact Hfalsy|].
  intros key [Hkey|Hkey]; apply Hfalsy; by rewrite Hkey.
Qed.

(** C2, the part the code misses.  An array whose every element is a
    [File] is first appended entry by entry, and then overwritten by the
    [set] of line 132: the key ends up with the single text entry
    [JSON.stringify(prop)], and no file entry. *)
Theorem createBodyFromValue_form_data_file_array
    fuel value schema references dynamicFields result key files :
  outcome (convertValue fuel "body" value schema references dynamicFields) = Ok result ->
  typeof result = "object" ->
  key ∈ Object_keys result ->
  get_prop result key = VArray files ->
  forallb instanceof_File files = true ->
  exists formData text,
    outcome (createBodyFromValue fuel form_data value schema references dynamicFields) =
      Ok (BodyFormData formData) /\
    JSON_stringify (VArray files) = Some text /\
    FormData_getAll key formData = [EntryString text].
Proof.
  intros Hconv Hty Hkey Hprop Hfiles.
  assert (Htruthy : truthy result = true).
  { destruct result; try done. }
  eexists _, _. split; [|split].
  - rewrite createBodyFromValue_form_data, Hconv, Hty, Htruthy. reflexivity.
  - reflexivity.
  - rewrite form_data_entries. rewrite decide_True by done.
    unfold entries_of_property. rewrite Hprop. reflexivity.
Qed.

(** The parts of C2 the code does: a single [File] is attached as it is,
    and any other truthy value that is not an array of files... is attached
    as one JSON text entry. *)
Lemma createBodyFromValue_form_data_entries
    fuel value schema references dynamicFields formData :
  outcome (createBodyFromValue fuel form_data value schema references dynamicFields) =
    Ok (BodyFormData formData) ->
  exists result,
    outcome (convertValue fuel "body" value schema references dynamicFields) = Ok result /\
    forall key, key ∈ Object_keys result ->
      (forall name, get_prop result key = VFile name ->
         FormData_getAll key formData = [EntryFile name]) /\
      (forall text,
         truthy (get_prop result key) = true ->
         instanceof_File (get_prop result key) = false ->
         JSON_stringify (get_prop result key) = Some text ->
         FormData_getAll key formData = [EntryString text]).
Proof.
  rewrite createBodyFromValue_form_data.
  destruct (outcome (convertValue _ _ _ _ _ _)) as [result| |]; try done.
  destruct (negb _ || negb _); [done|]. intros [= <-].
  exists result. split; [done|]. intros key Hkey.
  rewrite form_data_entries, decide_True by done.
  unfold entries_of_property. split.
  - intros name ->. reflexivity.
  - intros text -> -> ->. reflexivity.
Qed.

(** ** Termination of value conversion *)

Lemma outcome_bind_OutOfFuel {A B} (m : Run A) (f : A -> Run B) :
  outcome (m ≫= f) = OutOfFuel <->
  outcome m = OutOfFuel \/ exists a, outcome m = Ok a /\ outcome (f a) = OutOfFuel.
Proof.
  rewrite outcome_bind. destruct (outcome m) as [a|e|].
  - split; [eauto|]. intros [|(a' & Ha & Hb)]; [done|]. by simplify_eq.
  - split; [done|]. by intros [|(a' & Ha & Hb)].
  - split; [auto|done].
Qed.

Lemma outcome_mapM_OutOfFuel {A B} (f : A -> Run B) l :
  outcome (mapM f l) = OutOfFuel ->
  exists x, x ∈ l /\ outcome (f x) = OutOfFuel.
Proof.
  induction l as [|x l IH]; simpl; [done|].
  rewrite outcome_bind_OutOfFuel. intros [H|(y & _ & H)].
  - exists x. split; [left|done].
  - apply outcome_bind_OutOfFuel in H as [H|(ys & _ & H)]; [|done].
    destruct (IH H) as (x' & Hin & Hx'). exists x'. split; [by right|done].
Qed.

Lemma outcome_imapM_OutOfFuel {A B} (f : nat -> A -> Run B) index l :
  outcome (imapM f index l) = OutOfFuel ->
  exists i x, x ∈ l /\ outcome (f i x) = OutOfFuel.
Proof.
  revert index. induction l as [|x l IH]; intros index; simpl; [done|].
  rewrite outcome_bind_OutOfFuel. intros [H|(y & _ & H)].
  - exists index, x. split; [left|done].
  - apply outcome_bind_OutOfFuel in H as [H|(ys & _ & H)]; [|done].
    destruct (IH _ H) as (i & x' & Hin & Hx'). exists i, x'. split; [by right|done].
Qed.

Lemma depth_item (x : Value) items :
  x ∈ items -> depth x < depth (VArray items).
Proof.
  simpl. induction 1 as [x items|x y items _ IH]; simpl.
  - generalize (foldr (fun x d => depth x `max` d) 0 items). lia.
  - revert IH. generalize (foldr (fun x d => depth x `max` d) 0 items). lia.
Qed.

Lemma depth_entry k (x : Value) entries :
  (k, x) ∈ entries -> depth x < depth (VObject entries).
Proof.
  simpl. intros H. remember (k, x) as e eqn:He.
  induction H as [e entries|e e' entries _ IH]; subst; simpl.
  - generalize (foldr (fun e d => depth e.2 `max` d) 0 entries). lia.
  - specialize (IH eq_refl). revert IH.
    generalize (foldr (fun e d => depth e.2 `max` d) 0 entries). lia.
Qed.

Lemma depth_own_entries value k (x : Value) :
  (k, x) ∈ own_entries value -> depth x < depth value.
Proof.
  destruct value; simpl; try (intros H; by apply elem_of_nil in H).
  - intros H. apply list_elem_of_lookup in H as [i Hi].
    rewrite list_lookup_imap in Hi.
    destruct (items !! i) as [y|] eqn:Hy; [|done].
    simpl in Hi. injection Hi as _ ->.
    apply (depth_item x items). eapply list_elem_of_lookup_2, Hy.
  - apply depth_entry.
Qed.

Lemma get_prop_own_entries value key :
  key ∈ Object_keys value ->
  exists k, (k, get_prop value key) ∈ own_entries value.
Proof.
  unfold Object_keys, get_prop. intros Hkey.
  apply list_elem_of_fmap in Hkey as ([k x] & -> & Hin). simpl.
  destruct (list_find _ _) as [[i [k' x']]|] eqn:Hfind.
  - apply list_find_Some in Hfind as (Hi & _ & _).
    exists k'. simpl. eapply list_elem_of_lookup_2, Hi.
  - apply list_find_None in Hfind.
    rewrite Forall_forall in Hfind. by destruct (Hfind _ Hin).
Qed.

Lemma depth_get_prop value key :
  key ∈ Object_keys value -> depth (get_prop value key) < depth value.
Proof.
  intros Hkey. destruct (get_prop_own_entries _ _ Hkey) as [k Hk].
  by eapply depth_own_entries.
Qed.

Lemma switcher_free_resolved references dynamicFields name s :
  switcher_free references dynamicFields ->
  resolve (getDynamicFieldSchema name dynamicFields) references = Some s ->
  is_switcher (type s) = false.
Proof.
  intros Hfree. unfold getDynamicFieldSchema.
  destruct (dynamicFields !! name) as [[schema|]|] eqn:Hname; simpl.
  - intros Hs. specialize (Hfree _ _ Hname). simpl in Hfree. by rewrite Hs in Hfree.
  - by intros [= <-].
  - by intros [= <-].
Qed.

(** The fuel a call needs: two levels per level of nesting of the value
    (a switcher hop, then the walk), and one more hop at the root. *)
Lemma convertValue_enough_fuel fuel fieldName value schema references dynamicFields :
  switcher_free references dynamicFields ->
  2 * depth value + (if is_switcher (type schema) then 2 else 1) <= fuel ->
  outcome (convertValue fuel fieldName value schema references dynamicFields)
  <> OutOfFuel.
Proof.
  intros Hfree. revert fieldName value schema.
  induction fuel as [|fuel IH]; intros fieldName value schema Hfuel.
  { destruct (is_switcher _); lia. }
  assert (Hchild : forall name child s,
            depth child < depth value ->
            outcome (convertValue fuel name child s references dynamicFields)
            <> OutOfFuel).
  { intros name child s Hlt. apply IH.
    destruct (is_switcher (type s)), (is_switcher (type schema)); lia. }
  simpl. destruct (isEmpty value && isRequired schema); [done|].
  destruct (isEmpty value); [done|].
  assert (Hswitch :
    outcome (s ← resolved (getDynamicFieldSchema fieldName dynamicFields) references;
             convertValue fuel fieldName value s references dynamicFields)
    <> OutOfFuel \/ is_switcher (type schema) = false).
  { destruct (is_switcher (type schema)) eqn:Hsw; [left|by right].
    intros H. apply outcome_bind_OutOfFuel in H as [H|(s & Hs & H)].
    - rewrite outcome_resolved in H. by destruct (resolve _ _).
    - rewrite outcome_resolved in Hs.
      destruct (resolve _ _) as [s'|] eqn:Hres; [|done]. injection Hs as ->.
      revert H. apply IH.
      rewrite (switcher_free_resolved _ _ _ _ Hfree Hres). lia. }
  assert (Harray : forall items itemSchema, value = VArray items ->
    outcome (converted ←
               imapM (convertItem
                        (fun name v s =>
                           convertValue fuel name v s references dynamicFields)
                        fieldName itemSchema references) 0 items;
             mret (VArray converted)) <> OutOfFuel).
  { intros items itemSchema -> H.
    apply outcome_bind_OutOfFuel in H as [H|(? & _ & H)]; [|done].
    apply outcome_imapM_OutOfFuel in H as (i & x & Hin & H).
    apply outcome_bind_OutOfFuel in H as [H|(s & _ & H)].
    - rewrite outcome_resolved in H. by destruct (resolve _ _).
    - revert H. apply Hchild. by apply depth_item. }
  assert (Hobject : forall properties additionalProperties,
    outcome (entries ←
               mapM (convertEntry
                       (fun name v s =>
                          convertValue fuel name v s references dynamicFields)
                       fieldName value properties additionalProperties
                       references dynamicFields)
                    (Object_keys value);
             mret (Object_fromEntries entries)) <> OutOfFuel).
  { intros properties additionalProperties H.
    apply outcome_bind_OutOfFuel in H as [H|(? & _ & H)]; [|done].
    apply outcome_mapM_OutOfFuel in H as (key & Hkey & H).
    assert (Hconv : forall s,
      outcome (v ← convertValue fuel (fieldName +:+ "." +:+ key)
                     (get_prop value key) s references dynamicFields;
               mret (key, v)) <> OutOfFuel).
    { intros s H'. apply outcome_bind_OutOfFuel in H' as [H'|(? & _ & H')]; [|done].
      revert H'. apply Hchild. by apply depth_get_prop. }
    unfold convertEntry in H. destruct (properties !! key) as [property|].
    - apply outcome_bind_OutOfFuel in H as [H|(s & _ & H)].
      + rewrite outcome_resolved in H. by destruct (resolve _ _).
      + by apply Hconv in H.
    - destruct additionalProperties.
      + apply outcome_bind_OutOfFuel in H as [H|(s & _ & H)].
        * rewrite outcome_resolved in H. by destruct (resolve _ _).
        * by apply Hconv in H.
      + apply outcome_bind_OutOfFuel in H as [H|(? & _ & H)]; done. }
  destruct value, (type schema);
    try done; try (by destruct Hswitch); eauto.
Qed.

(** More fuel does not change a run that the fuel at hand saw the end of. *)

Lemma bind_fuel_ext {A B} (m m' : Run A) (g g' : A -> Run B) :
  (outcome m <> OutOfFuel -> m' = m) ->
  (forall a, outcome m = Ok a -> outcome (g a) <> OutOfFuel -> g' a = g a) ->
  outcome (m ≫= g) <> OutOfFuel ->
  (m' ≫= g') = (m ≫= g).
Proof.
  intros Hm Hg Hrun.
  assert (Hm' : outcome m <> OutOfFuel).
  { intros H. apply Hrun. apply outcome_bind_OutOfFuel. by left. }
  rewrite (Hm Hm'). destruct m as [w [a|e|]]; try done.
  assert (Ha : outcome (g a) <> OutOfFuel).
  { intros H. apply Hrun. apply outcome_bind_OutOfFuel. right. by exists a. }
  unfold mbind, Run_mbind, Run_bind. by rewrite (Hg a eq_refl Ha).
Qed.

Lemma mapM_fuel_ext {A B} (f f' : A -> Run B) l :
  (forall x, outcome (f x) <> OutOfFuel -> f' x = f x) ->
  outcome (mapM f l) <> OutOfFuel ->
  mapM f' l = mapM f l.
Proof.
  intros Hf. induction l as [|x l IH]; [done|]. simpl. intros Hrun.
  apply bind_fuel_ext; [apply Hf| |exact Hrun].
  intros y _ Hrest. apply bind_fuel_ext; [|done|exact Hrest].
  intros _. apply IH. intros H. apply Hrest.
  apply outcome_bind_OutOfFuel. by left.
Qed.

Lemma imapM_fuel_ext {A B} (f f' : nat -> A -> Run B) index l :
  (forall i x, outcome (f i x) <> OutOfFuel -> f' i x = f i x) ->
  outcome (imapM f index l) <> OutOfFuel ->
  imapM f' index l = imapM f index l.
Proof.
  intros Hf. revert index. induction l as [|x l IH]; intros index; [done|].
  simpl. intros Hrun.
  apply bind_fuel_ext; [apply Hf| |exact Hrun].
  intros y _ Hrest. apply bind_fuel_ext; [|done|exact Hrest].
  intros _. apply IH. intros H. apply Hrest.
  apply outcome_bind_OutOfFuel. by left.
Qed.

Lemma resolved_fuel_ext {B} schema references (g g' : RequestSchema -> Run B) :
  (forall s, outcome (g s) <> OutOfFuel -> g' s = g s) ->
  outcome (resolved schema references ≫= g) <> OutOfFuel ->
  (resolved schema references ≫= g') = (resolved schema references ≫= g).
Proof. intros Hg. apply bind_fuel_ext; [done|]. intros s _. apply Hg. Qed.

Lemma convertValue_fuel_mono fuel fuel' fieldName value schema references dynamicFields :
  fuel <= fuel' ->
  outcome (convertValue fuel fieldName value schema references dynamicFields)
  <> OutOfFuel ->
  convertValue fuel' fieldName value schema references dynamicFields =
  convertValue fuel fieldName value schema references dynamicFields.
Proof.
  revert fuel' fieldName value schema.
  induction fuel as [|fuel IH]; intros fuel' fieldName value schema Hle; [done|].
  destruct fuel' as [|fuel']; [lia|].
  assert (Hrec : forall name v s,
    outcome (convertValue fuel name v s references dynamicFields) <> OutOfFuel ->
    convertValue fuel' name v s references dynamicFields =
    convertValue fuel name v s references dynamicFields).
  { intros name v s. apply IH. lia. }
  assert (Hitem : forall itemSchema i x,
    outcome (convertItem
               (fun name v s => convertValue fuel name v s references dynamicFields)
               fieldName itemSchema references i x) <> OutOfFuel ->
    convertItem
      (fun name v s => convertValue fuel' name v s references dynamicFields)
      fieldName itemSchema references i x =
    convertItem
      (fun name v s => convertValue fuel name v s references dynamicFields)
      fieldName itemSchema references i x).
  { intros itemSchema i x. unfold convertItem. apply resolved_fuel_ext.
    intros s. apply Hrec. }
  assert (Hentry : forall (properties : gmap string Schema) additionalProperties key,
    outcome (convertEntry
               (fun name v s => convertValue fuel name v s references dynamicFields)
               fieldName value properties additionalProperties
               references dynamicFields key) <> OutOfFuel ->
    convertEntry
      (fun name v s => convertValue fuel' name v s references dynamicFields)
      fieldName value properties additionalProperties references dynamicFields key =
    convertEntry
      (fun name v s => convertValue fuel name v s references dynamicFields)
      fieldName value properties additionalProperties references dynamicFields key).
  { intros properties additionalProperties key. unfold convertEntry.
    destruct (properties !! key) as [property|]; [|destruct additionalProperties];
      try done.
    all: apply resolved_fuel_ext; intros s; apply bind_fuel_ext; [apply Hrec|done]. }
  simpl. destruct (isEmpty value && isRequired schema); [done|].
  destruct (isEmpty value); [done|].
  destruct value, (type schema); try done;
    try (apply resolved_fuel_ext; intros ?; apply Hrec);
    try (apply bind_fuel_ext; [|done];
         first [ apply imapM_fuel_ext; apply Hitem
               | apply mapM_fuel_ext; apply Hentry ]).
Qed.

(** C7, as the code has it.  When no dynamic field is bound to a schema
    that resolves to a switcher, value conversion terminates, within a
    recursion depth bounded by the depth of the value: fuel
    [2 * depth value + 2] suffices, and the result does not depend on the
    fuel beyond it. *)
Theorem convertValue_terminates fieldName value schema references dynamicFields :
  switcher_free references dynamicFields ->
  terminates (fun fuel =>
    convertValue fuel fieldName value schema references dynamicFields) /\
  forall fuel, 2 * depth value + 2 <= fuel ->
    outcome (convertValue fuel fieldName value schema references dynamicFields)
    <> OutOfFuel /\
    convertValue fuel fieldName value schema references dynamicFields =
    convertValue (2 * depth value + 2) fieldName value schema references dynamicFields.
Proof.
  intros Hfree.
  assert (Hbound : forall fuel, 2 * depth value + 2 <= fuel ->
    outcome (convertValue fuel fieldName value schema references dynamicFields)
    <> OutOfFuel).
  { intros fuel Hfuel. apply convertValue_enough_fuel; [done|].
    destruct (is_switcher (type schema)); lia. }
  split.
  - exists (2 * depth value + 2). by apply Hbound.
  - intros fuel Hfuel. split; [by apply Hbound|].
    apply convertValue_fuel_mono; [done|]. by apply Hbound.
Qed.

(** A switcher field whose dynamic field is bound to a switcher again is
    converted by a call that repeats itself. *)
Lemma convertValue_switcher_loop fuel fieldName value required required'
    references dynamicFields :
  isEmpty value = false ->
  dynamicFields !! fieldName =
    Some (DynamicField_field (Concrete (mkSchema t_switcher required'))) ->
  outcome (convertValue fuel fieldName value (mkSchema t_switcher required)
             references dynamicFields) = OutOfFuel.
Proof.
  intros Hempty Hfield. revert required.
  induction fuel as [|fuel IH]; intros required; [done|].
  simpl. rewrite Hempty. simpl.
  assert (Hstep :
    outcome (s ← resolved (getDynamicFieldSchema fieldName dynamicFields) references;
             convertValue fuel fieldName value s references dynamicFields)
    = OutOfFuel).
  { apply outcome_bind_OutOfFuel. right.
    exists (mkSchema t_switcher required'). split; [|apply IH].
    unfold getDynamicFieldSchema. by rewrite Hfield. }
  by destruct value.
Qed.

(** ** JSON texts: what [JSON.stringify] writes can be read back *)

Lemma append_cons x (a b : string) : String x a +:+ b = String x (a +:+ b).
Proof. reflexivity. Qed.

Lemma append_assoc (a b c : string) : (a +:+ b) +:+ c = a +:+ (b +:+ c).
Proof. induction a as [|x a IH]; [done|]. by rewrite !append_cons, IH. Qed.

Lemma append_nil_r (a : string) : a +:+ "" = a.
Proof. induction a as [|x a IH]; [done|]. by rewrite append_cons, IH. Qed.

Lemma length_append (a b : string) :
  String.length (a +:+ b) = String.length a + String.length b.
Proof. induction a as [|x a IH]; [done|]. rewrite append_cons. simpl. by rewrite IH. Qed.

Lemma parse_chars_escape_char c r :
  parse_chars (escape_char c +:+ r) =
  match parse_chars r with
  | Some (t, rest) => Some (String c t, rest)
  | None => None
  end.
Proof. destruct c as [[] [] [] [] [] [] [] []]; reflexivity. Qed.

Lemma parse_chars_escape_string s rest :
  parse_chars (escape_string s +:+ String dquote rest) = Some (s, rest).
Proof.
  induction s as [|c s IH]; [done|].
  change (escape_string (String c s)) with (escape_char c +:+ escape_string s).
  by rewrite append_assoc, parse_chars_escape_char, IH.
Qed.

Lemma parse_string_quote s rest :
  parse_string (QuoteJSONString s +:+ rest) = Some (s, rest).
Proof.
  unfold QuoteJSONString. rewrite append_cons, append_assoc, append_cons.
  apply parse_chars_escape_string.
Qed.

Lemma num_step_numchar st c st' :
  num_step st c = Some st' -> is_numchar c = true.
Proof.
  destruct st; destruct c as [[] [] [] [] [] [] [] []]; vm_compute; congruence.
Qed.

Lemma num_run_numchars st tok :
  num_run st tok = true ->
  forall rest, delimited rest = true ->
    span_number (tok +:+ rest) = (tok, rest).
Proof.
  revert st. induction tok as [|c tok IH]; intros st Hrun rest Hrest;
    [change ("" +:+ rest) with rest|rewrite append_cons]; simpl.
  - destruct rest as [|d rest]; [done|]. simpl in Hrest |- *.
    assert (is_numchar d = false) as ->; [|done].
    destruct d as [[] [] [] [] [] [] [] []]; vm_compute in Hrest |- *; congruence.
  - simpl in Hrun. destruct (num_step st c) as [st'|] eqn:Hstep; [|done].
    rewrite (num_step_numchar _ _ _ Hstep). by rewrite (IH st' Hrun rest Hrest).
Qed.

Lemma parse_number_token tok rest :
  is_json_number tok = true -> delimited rest = true ->
  parse_number (tok +:+ rest) = Some (JNumber tok, rest).
Proof.
  intros Htok Hrest. unfold parse_number.
  rewrite (num_run_numchars NStart tok Htok rest Hrest). by rewrite Htok.
Qed.

Lemma skip_ws_head c r : is_ws c = false -> skip_ws (String c r) = String c r.
Proof. intros H. simpl. by rewrite H. Qed.

Lemma value_start_spec c :
  value_start c = true ->
  is_ws c = false /\ (c =? "]")%char = false /\ (c =? "}")%char = false /\
  (c =? ",")%char = false.
Proof. destruct c as [[] [] [] [] [] [] [] []]; vm_compute; auto; congruence. Qed.

Lemma is_json_number_head tok :
  is_json_number tok = true ->
  exists c r, tok = String c r /\ (is_digit c || (c =? "-")%char) = true.
Proof.
  destruct tok as [|c r]; [intros H; discriminate H|].
  intros H. exists c, r. split; [done|].
  change (is_json_number (String c r))
    with (match num_step NStart c with
          | Some st' => num_run st' r
          | None => false
          end) in H.
  destruct (num_step NStart c) eqn:Hstep; [|done]. clear H. revert Hstep.
  destruct c as [[] [] [] [] [] [] [] []]; vm_compute; congruence.
Qed.

Lemma json_text_Some v text :
  SerializeJSONProperty v = Some text -> json_text v = text.
Proof. unfold json_text. by intros ->. Qed.

Lemma SerializeJSONProperty_None v :
  SerializeJSONProperty v = None <-> is_undefined v = true.
Proof. destruct v; simpl; split; congruence. Qed.

Lemma to_json_None v : to_json v = None <-> is_undefined v = true.
Proof. destruct v; simpl; split; congruence. Qed.

Lemma json_text_array items :
  json_text (VArray items) =
  String "[" (String.concat "," (map json_text items) +:+ "]").
Proof. reflexivity. Qed.

Lemma json_doc_array items :
  json_doc (VArray items) = JArray (map json_doc items).
Proof. reflexivity. Qed.

Lemma omap_present {B} (F : string * Value -> option B) (G : string * Value -> B)
    entries :
  (forall e, F e = if is_undefined e.2 then None else Some (G e)) ->
  omap F entries = map G (present entries).
Proof.
  intros HF. induction entries as [|e entries IH]; [done|].
  simpl. rewrite HF. unfold present. rewrite filter_cons.
  destruct (is_undefined e.2) eqn:Hu.
  - rewrite decide_False by done. apply IH.
  - rewrite decide_True by done. simpl. f_equal. apply IH.
Qed.

Lemma json_text_object entries :
  json_text (VObject entries) =
  String "{" (String.concat "," (map member_text (present entries)) +:+ "}").
Proof.
  unfold json_text at 1. simpl.
  rewrite (omap_present _ member_text); [done|].
  intros [k []]; reflexivity.
Qed.

Lemma json_doc_object entries :
  json_doc (VObject entries) =
  JObject (map (fun e => (e.1, json_doc e.2)) (present entries)).
Proof.
  unfold json_doc at 1. simpl.
  rewrite (omap_present _ (fun e => (e.1, json_doc e.2))); [done|].
  intros [k []]; reflexivity.
Qed.

Lemma json_text_head v :
  exists c r, json_text v = String c r /\ value_start c = true.
Proof.
  destruct v as [| |[]|n|s|name|items|entries];
    try (by eexists _, _; split; [reflexivity|]).
  unfold json_text. simpl. destruct (num_isFinite n) eqn:Hfin.
  - destruct (is_json_number_head _ (NumberToString_json n Hfin))
      as (c & r & -> & Hc).
    exists c, r. split; [done|]. unfold value_start.
    apply orb_true_iff in Hc as [->| ->]; by rewrite ?orb_true_r.
  - by eexists _, _; split; [reflexivity|].
Qed.

Lemma member_text_head e :
  exists r, member_text e = String dquote r.
Proof. by eexists. Qed.

Lemma parse_items_S {A} (item : string -> option (A * string)) close n s :
  parse_items item close (S n) s =
  match item (skip_ws s) with
  | Some (x, r) =>
      match skip_ws r with
      | String c r' =>
          if (c =? ",")%char then
            match parse_items item close n r' with
            | Some (xs, r'') => Some (x :: xs, r'')
            | None => None
            end
          else if (c =? close)%char then Some ([x], r')
          else None
      | EmptyString => None
      end
  | None => None
  end.
Proof. reflexivity. Qed.

(** A non-empty run of items, each followed by what delimits it. *)
Lemma parse_items_texts {A} (item : string -> option (A * string)) close
    (xs : list (string * A)) n rest :
  is_ws close = false ->
  (close =? ",")%char = false ->
  delimited (String close rest) = true ->
  xs <> [] ->
  length xs <= n ->
  Forall (fun tx =>
            (forall rest', delimited rest' = true ->
               item (tx.1 +:+ rest') = Some (tx.2, rest')) /\
            exists c r, tx.1 = String c r /\ is_ws c = false) xs ->
  parse_items item close n (String.concat "," xs.*1 +:+ String close rest) =
  Some (xs.*2, rest).
Proof.
  intros Hws Hcomma Hclose. revert n.
  induction xs as [|[t x] xs IH]; intros n Hne Hlen Hall; [done|].
  destruct n as [|n]; [simpl in Hlen; lia|].
  apply Forall_cons in Hall as [[Hitem (c & r & Ht & Hc)] Hall].
  simpl in Hitem, Ht. subst t.
  destruct xs as [|[t2 x2] xs].
  - change (String.concat "," [(String c r, x)].*1) with (String c r).
    rewrite parse_items_S, append_cons, (skip_ws_head _ _ Hc).
    rewrite <- append_cons, (Hitem _ Hclose).
    rewrite (skip_ws_head _ _ Hws), Hcomma.
    by rewrite Ascii.eqb_refl.
  - change (String.concat "," ((String c r, x) :: (t2, x2) :: xs).*1)
      with (String c r +:+ "," +:+ String.concat "," ((t2, x2) :: xs).*1).
    rewrite !append_assoc.
    change ("," +:+ ?y) with (String "," y).
    rewrite parse_items_S, append_cons, (skip_ws_head _ _ Hc).
    rewrite <- append_cons.
    rewrite (Hitem (String "," _)) by reflexivity.
    rewrite (skip_ws_head "," _ eq_refl).
    change ("," =? ",")%char with true. cbv iota.
    rewrite IH; [done|done| |done]. simpl in Hlen |- *. lia.
Qed.

Lemma concat_length (l : list string) :
  Forall (fun t => exists c r, t = String c r) l ->
  length l <= String.length (String.concat "," l).
Proof.
  induction 1 as [|t l (c & r & ->) _ IH]; [done|].
  destruct l as [|t2 l].
  - simpl. lia.
  - change (String.concat "," (String c r :: t2 :: l))
      with (String c r +:+ "," +:+ String.concat "," (t2 :: l)).
    rewrite !length_append. simpl in IH |- *. lia.
Qed.

Lemma concat_elem_length (l : list string) t :
  t ∈ l -> String.length t <= String.length (String.concat "," l).
Proof.
  induction l as [|x l IH]; [by intros ?%elem_of_nil|].
  intros Hin. destruct l as [|t2 l].
  - apply list_elem_of_singleton in Hin as ->. done.
  - change (String.concat "," (x :: t2 :: l))
      with (x +:+ "," +:+ String.concat "," (t2 :: l)).
    rewrite !length_append.
    apply elem_of_cons in Hin as [->|Hin]; [lia|].
    specialize (IH Hin). lia.
Qed.

Lemma parse_value_array f c r :
  is_ws c = false -> (c =? "]")%char = false ->
  parse_value (S f) (String "[" (String c r)) =
  match parse_items (parse_value f) "]" (String.length (String c r)) (String c r) with
  | Some (js, rest) => Some (JArray js, rest)
  | None => None
  end.
Proof.
  intros Hws Hc.
  change (parse_value (S f) (String "[" (String c r))) with
    (match skip_ws (String c r) with
     | String c' r' =>
         if (c' =? "]")%char then Some (JArray [], r')
         else match parse_items (parse_value f) "]"
                      (String.length (String c r)) (String c r) with
              | Some (js, rest) => Some (JArray js, rest)
              | None => None
              end
     | EmptyString => None
     end).
  by rewrite (skip_ws_head _ _ Hws), Hc.
Qed.

Lemma parse_value_object f c r :
  is_ws c = false -> (c =? "}")%char = false ->
  parse_value (S f) (String "{" (String c r)) =
  match parse_items (parse_member (parse_value f)) "}"
          (String.length (String c r)) (String c r) with
  | Some (ms, rest) => Some (JObject ms, rest)
  | None => None
  end.
Proof.
  intros Hws Hc.
  change (parse_value (S f) (String "{" (String c r))) with
    (match skip_ws (String c r) with
     | String c' r' =>
         if (c' =? "}")%char then Some (JObject [], r')
         else match parse_items (parse_member (parse_value f)) "}"
                      (String.length (String c r)) (String c r) with
              | Some (ms, rest) => Some (JObject ms, rest)
              | None => None
              end
     | EmptyString => None
     end).
  by rewrite (skip_ws_head _ _ Hws), Hc.
Qed.

Lemma parse_value_string f s rest :
  parse_value (S f) (QuoteJSONString s +:+ rest) = Some (JString s, rest).
Proof.
  unfold QuoteJSONString. rewrite append_cons, append_assoc, append_cons.
  change (parse_value (S f) (String dquote ?x)) with
    (match parse_chars x with
     | Some (t, rest) => Some (JString t, rest)
     | None => None
     end).
  change ("" +:+ rest) with rest.
  by rewrite parse_chars_escape_string.
Qed.

Lemma parse_value_number f tok rest :
  is_json_number tok = true -> delimited rest = true ->
  parse_value (S f) (tok +:+ rest) = Some (JNumber tok, rest).
Proof.
  intros Htok Hrest. rewrite <- (parse_number_token _ _ Htok Hrest).
  destruct (is_json_number_head _ Htok) as (c & r & -> & Hc).
  rewrite append_cons. clear Htok. revert Hc.
  destruct c as [[] [] [] [] [] [] [] []]; intros Hc;
    first [discriminate Hc | reflexivity].
Qed.

Lemma parse_member_text (value : string -> option (Json * string)) e rest :
  (forall rest', delimited rest' = true ->
     value (json_text e.2 +:+ rest') = Some (json_doc e.2, rest')) ->
  delimited rest = true ->
  parse_member value (member_text e +:+ rest) = Some ((e.1, json_doc e.2), rest).
Proof.
  intros Hvalue Hrest. unfold parse_member, member_text.
  rewrite !append_assoc, parse_string_quote.
  change (":" +:+ ?x) with (String ":" x).
  rewrite (skip_ws_head ":" _ eq_refl).
  change (":" =? ":")%char with true. cbv iota.
  destruct (json_text_head e.2) as (c & r & Hhead & Hc).
  apply value_start_spec in Hc as (Hws & _).
  rewrite Hhead, append_cons, (skip_ws_head _ _ Hws).
  rewrite <- append_cons, <- Hhead. by rewrite (Hvalue _ Hrest).
Qed.

Lemma present_subseteq entries e : e ∈ present entries -> e ∈ entries.
Proof. unfold present. by intros [_ ?]%list_elem_of_filter. Qed.

(** Reading back the text of a value, whatever delimiter follows it. *)
Lemma parse_value_json_text fuel v rest :
  depth v < fuel ->
  delimited rest = true ->
  parse_value fuel (json_text v +:+ rest) = Some (json_doc v, rest).
Proof.
  revert v rest. induction fuel as [|f IH]; intros v rest Hfuel Hrest; [lia|].
  destruct v as [| |[]|n|s|name|items|entries]; try reflexivity.
  - (* numbers *)
    unfold json_text, json_doc. simpl.
    destruct (num_isFinite n) eqn:Hfin; [|reflexivity].
    apply parse_value_number; [by apply NumberToString_json|done].
  - (* strings *)
    apply parse_value_string.
  - (* arrays *)
    rewrite json_text_array, json_doc_array.
    destruct items as [|x items]; [reflexivity|].
    set (xs := map (fun v => (json_text v, json_doc v)) (x :: items)).
    replace (map json_text (x :: items)) with xs.*1
      by (unfold xs; rewrite <- list_fmap_compose; reflexivity).
    replace (map json_doc (x :: items)) with xs.*2
      by (unfold xs; rewrite <- list_fmap_compose; reflexivity).
    assert (Hxs : Forall (fun tx =>
              (forall rest', delimited rest' = true ->
                 parse_value f (tx.1 +:+ rest') = Some (tx.2, rest')) /\
              exists c r, tx.1 = String c r /\ is_ws c = false) xs).
    { apply Forall_forall. intros tx Htx.
      apply list_elem_of_fmap in Htx as (y & -> & Hy). simpl. split.
      - intros rest' Hrest'. apply IH; [|done].
        pose proof (depth_item _ _ Hy). lia.
      - destruct (json_text_head y) as (c & r & Hhead & Hc).
        apply value_start_spec in Hc as (Hws & _). eauto. }
    destruct (json_text_head x) as (c & r & Hhead & Hc).
    apply value_start_spec in Hc as (Hws & Hbracket & _).
    rewrite append_cons, append_assoc.
    change ("]" +:+ rest) with (String "]" rest).
    assert (Hparse : forall n, length xs <= n ->
      parse_items (parse_value f) "]" n
        (String.concat "," xs.*1 +:+ String "]" rest) = Some (xs.*2, rest)).
    { intros n Hn. by apply parse_items_texts. }
    assert (Hlen :
      length xs <= String.length (String.concat "," xs.*1 +:+ String "]" rest)).
    { rewrite length_append. etrans; [|apply Nat.le_add_r].
      rewrite <- (length_fmap fst xs). apply concat_length.
      apply Forall_fmap. eapply Forall_impl; [exact Hxs|].
      intros tx [_ (c' & r'' & ? & _)]. simpl. eauto. }
    assert (Htext : exists r',
      String.concat "," xs.*1 +:+ String "]" rest = String c r').
    { unfold xs. destruct items as [|x2 items]; simpl.
      - rewrite Hhead, append_cons. eauto.
      - rewrite !append_assoc, Hhead, append_cons. eauto. }
    destruct Htext as [r' Htext]. rewrite Htext in Hlen, Hparse |- *.
    rewrite parse_value_array by done. by rewrite Hparse.
  - (* objects *)
    rewrite json_text_object, json_doc_object.
    destruct (present entries) as [|e es] eqn:Hpresent; [reflexivity|].
    set (xs := map (fun e => (member_text e, (e.1, json_doc e.2))) (e :: es)).
    replace (map member_text (e :: es)) with xs.*1
      by (unfold xs; rewrite <- list_fmap_compose; reflexivity).
    replace (map (fun e => (e.1, json_doc e.2)) (e :: es)) with xs.*2
      by (unfold xs; rewrite <- list_fmap_compose; reflexivity).
    assert (Hxs : Forall (fun tx =>
              (forall rest', delimited rest' = true ->
                 parse_member (parse_value f) (tx.1 +:+ rest') = Some (tx.2, rest')) /\
              exists c r, tx.1 = String c r /\ is_ws c = false) xs).
    { apply Forall_forall. intros tx Htx.
      apply list_elem_of_fmap in Htx as ([k y] & -> & Hy). simpl. split.
      - intros rest' Hrest'. apply (parse_member_text _ (k, y)); [|done].
        intros rest'' Hrest''. apply IH; [|done]. simpl.
        rewrite <- Hpresent in Hy. apply present_subseteq in Hy.
        pose proof (depth_entry _ _ _ Hy). lia.
      - destruct (member_text_head (k, y)) as [r Hr]. rewrite Hr. by eexists _, _. }
    destruct (member_text_head e) as [r Hhead].
    rewrite append_cons, append_assoc.
    change ("}" +:+ rest) with (String "}" rest).
    assert (Hparse : forall n, length xs <= n ->
      parse_items (parse_member (parse_value f)) "}" n
        (String.concat "," xs.*1 +:+ String "}" rest) = Some (xs.*2, rest)).
    { intros n Hn. by apply parse_items_texts. }
    assert (Hlen :
      length xs <= String.length (String.concat "," xs.*1 +:+ String "}" rest)).
    { rewrite length_append. etrans; [|apply Nat.le_add_r].
      rewrite <- (length_fmap fst xs). apply concat_length.
      apply Forall_fmap. eapply Forall_impl; [exact Hxs|].
      intros tx [_ (c' & r'' & ? & _)]. simpl. eauto. }
    assert (Htext : exists r',
      String.concat "," xs.*1 +:+ String "}" rest = String dquote r').
    { unfold xs. destruct es as [|e2 es]; simpl.
      - rewrite Hhead, append_cons. eauto.
      - rewrite !append_assoc, Hhead, append_cons. eauto. }
    destruct Htext as [r' Htext]. rewrite Htext in Hlen, Hparse |- *.
    rewrite parse_value_object by done. by rewrite Hparse.
Qed.

Lemma foldr_max_le {A} (f : A -> nat) (l : list A) b :
  (forall x, x ∈ l -> f x <= b) ->
  foldr (fun x d => f x `max` d) 0 l <= b.
Proof.
  induction l as [|x l IH]; intros Hall; simpl; [lia|].
  apply Nat.max_lub.
  - apply Hall. left.
  - apply IH. intros y Hy. apply Hall. by right.
Qed.

Lemma depth_lt_json_text v : depth v < String.length (json_text v).
Proof.
  assert (H : forall n v, depth v <= n -> depth v < String.length (json_text v));
    [|by apply (H (depth v))].
  clear v. induction n as [|n IH]; intros v Hn.
  - destruct (json_text_head v) as (c & r & -> & _). simpl. lia.
  - destruct v as [| |b|m|s|name|items|entries];
      try (match goal with
           | |- _ < String.length (json_text ?v) =>
               destruct (json_text_head v) as (c & r & -> & _)
           end; simpl; lia).
    + rewrite json_text_array. simpl in Hn |- *. rewrite length_append. simpl.
      assert (foldr (fun x d => depth x `max` d) 0 items <=
              String.length (String.concat "," (map json_text items))); [|lia].
      apply foldr_max_le. intros x Hx.
      assert (depth x < String.length (json_text x)).
      { apply IH. pose proof (depth_item _ _ Hx). simpl in *. lia. }
      assert (String.length (json_text x) <=
              String.length (String.concat "," (map json_text items))).
      { apply concat_elem_length. by apply list_elem_of_fmap_2. }
      lia.
    + rewrite json_text_object. simpl in Hn |- *. rewrite length_append. simpl.
      assert (foldr (fun e d => depth e.2 `max` d) 0 entries <=
              String.length
                (String.concat "," (map member_text (present entries)))); [|lia].
      apply (foldr_max_le (fun e => depth e.2)). intros [k x] Hx. simpl.
      destruct (is_undefined x) eqn:Hu.
      { destruct x; try done. simpl. lia. }
      assert (depth x < String.length (json_text x)).
      { apply IH. pose proof (depth_entry _ _ _ Hx). simpl in *. lia. }
      assert (String.length (member_text (k, x)) <=
              String.length
                (String.concat "," (map member_text (present entries)))).
      { apply concat_elem_length. apply list_elem_of_fmap_2.
        unfold present. apply list_elem_of_filter. by split. }
      unfold member_text in *. rewrite !length_append in *. simpl in *. lia.
Qed.

(** What [JSON.stringify] writes for a value is a JSON text, and reads
    back as the document of that value. *)
Lemma JSON_stringify_parse v text :
  JSON_stringify v = Some text ->
  to_json v = Some (json_doc v) /\ JSON_parse text = Some (json_doc v).
Proof.
  unfold JSON_stringify. intros Htext.
  assert (Hdef : is_undefined v = false).
  { destruct (is_undefined v) eqn:Hu; [|done].
    apply SerializeJSONProperty_None in Hu. congruence. }
  split.
  { unfold json_doc. destruct (to_json v) eqn:Hj; [done|].
    apply to_json_None in Hj. congruence. }
  apply json_text_Some in Htext. subst text. unfold JSON_parse.
  destruct (json_text_head v) as (c & r & Hhead & Hc).
  apply value_start_spec in Hc as (Hws & _).
  rewrite Hhead at 2. rewrite (skip_ws_head _ _ Hws), <- Hhead.
  rewrite <- (append_nil_r (json_text v)) at 2.
  rewrite parse_value_json_text; [done| |done].
  pose proof (depth_lt_json_text v). lia.
Qed.

Lemma JSON_stringify_undefined v :
  JSON_stringify v = None <-> v = VUndefined.
Proof. destruct v; simpl; split; congruence. Qed.

Lemma createBodyFromValue_json_outcome fuel value schema references dynamicFields :
  outcome (createBodyFromValue fuel json value schema references dynamicFields) =
  match outcome (convertValue fuel "body" value schema references dynamicFields) with
  | Ok result =>
      Ok (match JSON_stringify result with
          | Some text => BodyString text
          | None => BodyUndefined
          end)
  | Throw e => Throw e
  | OutOfFuel => OutOfFuel
  end.
Proof.
  unfold createBodyFromValue. rewrite outcome_bind.
  by destruct (outcome (convertValue _ _ _ _ _ _)).
Qed.

(** C3, as the code has it.  When value conversion returns a value other
    than [undefined], the body built with encoding [json] is a JSON text:
    it reads back as the JSON document of the converted value.  When
    conversion returns [undefined], [JSON.stringify] returns [undefined] and
    the body is no text at all. *)
Theorem createBodyFromValue_json fuel value schema references dynamicFields result :
  outcome (convertValue fuel "body" value schema references dynamicFields) = Ok result ->
  (result <> VUndefined ->
     exists text document,
       outcome (createBodyFromValue fuel json value schema references dynamicFields) =
         Ok (BodyString text) /\
       to_json result = Some document /\
       JSON_parse text = Some document) /\
  (result = VUndefined ->
     outcome (createBodyFromValue fuel json value schema references dynamicFields) =
       Ok BodyUndefined).
Proof.
  intros Hconv. rewrite createBodyFromValue_json_outcome, Hconv. split.
  - intros Hdef. destruct (JSON_stringify result) as [text|] eqn:Htext.
    + destruct (JSON_stringify_parse _ _ Htext) as [Hdoc Hparse]. eauto.
    + by apply JSON_stringify_undefined in Htext.
  - by intros ->.
Qed.

(** C5. A field whose raw value is empty and whose schema is not required
    converts to the absent marker [undefined]; and the JSON text of an
    object has no member for a key whose value is that marker. *)
Theorem convertValue_empty_optional_absent
    fuel fieldName value schema references dynamicFields :
  isEmpty value = true ->
  isRequired schema = false ->
  convertValue (S fuel) fieldName value schema references dynamicFields =
    mret VUndefined /\
  forall entries key,
    (forall v, (key, v) ∈ entries -> v = VUndefined) ->
    exists text members,
      JSON_stringify (VObject entries) = Some text /\
      JSON_parse text = Some (JObject members) /\
      key ∉ members.*1.
Proof.
  intros Hempty Hreq. split; [by apply convertValue_empty_optional|].
  intros entries key Hkey.
  destruct (JSON_stringify (VObject entries)) as [text|] eqn:Htext; [|done].
  destruct (JSON_stringify_parse _ _ Htext) as [_ Hparse].
  rewrite json_doc_object in Hparse.
  exists text. eexists. split; [done|]. split; [exact Hparse|].
  intros Hin. apply list_elem_of_fmap in Hin as ([k j] & Hk & Hin).
  simpl in Hk. subst k.
  apply list_elem_of_fmap in Hin as ([k v] & [= -> ->] & Hin).
  unfold present in Hin. apply list_elem_of_filter in Hin as [Hdef Hin].
  simpl in Hdef. by rewrite (Hkey _ Hin) in Hdef.
Qed.

(** ** Conversion followed by serialization *)

Lemma obj_set_elem k (v : Value) entries k' v' :
  (k', v') ∈ obj_set k v entries -> (k', v') ∈ entries \/ (k' = k /\ v' = v).
Proof.
  induction entries as [|[k0 x0] entries IH]; simpl.
  - intros [= -> ->]%list_elem_of_singleton. by right.
  - destruct (String.eqb k0 k) eqn:Hk.
    + apply String.eqb_eq in Hk as ->.
      intros [[= -> ->]|Hin]%elem_of_cons; [by right|]. left. by right.
    + intros [[= -> ->]|Hin]%elem_of_cons; [left; left|].
      destruct (IH Hin) as [?|?]; [left; by right|by right].
Qed.

Lemma Object_fromEntries_elem (entries : list (string * Value)) acc k v :
  (k, v) ∈ fold_left (fun o e => obj_set e.1 e.2 o) entries acc ->
  (k, v) ∈ acc \/ (k, v) ∈ entries.
Proof.
  revert acc. induction entries as [|[k0 x0] entries IH]; intros acc; simpl.
  - by left.
  - intros Hin. destruct (IH _ Hin) as [Hacc|Hrest]; [|right; by right].
    apply obj_set_elem in Hacc as [?|[-> ->]]; [by left|right; left].
Qed.

Lemma convertEntry_key convert fieldName value properties additionalProperties
    references dynamicFields key e :
  outcome (convertEntry convert fieldName value properties additionalProperties
             references dynamicFields key) = Ok e ->
  e.1 = key.
Proof.
  unfold convertEntry.
  destruct (properties !! key) as [property|]; [|destruct additionalProperties].
  - intros (s & _ & (v & _ & [= <-])%outcome_bind_Ok)%outcome_bind_Ok. done.
  - intros (s & _ & (v & _ & [= <-])%outcome_bind_Ok)%outcome_bind_Ok. done.
  - intros (? & _ & [= <-])%outcome_bind_Ok. done.
Qed.

(** The scenario of C5 from the raw value to the payload: a property that
    is declared, not required and empty in the raw value has no member in
    the JSON body. *)
Lemma createBodyFromValue_json_omits_optional
    fuel value schema properties additionalProperties references dynamicFields
    key property s result :
  type schema = t_object properties additionalProperties ->
  properties !! key = Some property ->
  resolve property references = Some s ->
  isRequired s = false ->
  isEmpty (get_prop value key) = true ->
  typeof value = "object" ->
  isEmpty value = false ->
  outcome (convertValue (S (S fuel)) "body" value schema references dynamicFields)
    = Ok result ->
  exists text members,
    outcome (createBodyFromValue (S (S fuel)) json value schema references
               dynamicFields) = Ok (BodyString text) /\
    JSON_parse text = Some (JObject members) /\
    key ∉ members.*1.
Proof.
  intros Hty Hprop Hres Hreq Hempty Hobj Hvalue Hconv.
  assert (Hresult : exists entries,
    result = Object_fromEntries entries /\
    Forall2 (fun k e =>
      outcome (convertEntry
                 (fun name v s' =>
                    convertValue (S fuel) name v s' references dynamicFields)
                 "body" value properties additionalProperties
                 references dynamicFields k) = Ok e)
      (Object_keys value) entries).
  { revert Hconv. simpl convertValue at 1. rewrite Hvalue, Hty.
    rewrite andb_false_l.
    destruct value as [| |b|n|t|name|items|fields]; try done;
      intros (entries & Hentries%outcome_mapM_Ok & [= <-])%outcome_bind_Ok;
      eauto. }
  destruct Hresult as (entries & -> & Hentries).
  rewrite createBodyFromValue_json_outcome, Hconv.
  unfold Object_fromEntries in *.
  set (fields := fold_left (fun o e => obj_set e.1 e.2 o) entries []).
  destruct (JSON_stringify (VObject fields)) as [text|] eqn:Htext; [|done].
  destruct (JSON_stringify_parse _ _ Htext) as [_ Hparse].
  rewrite json_doc_object in Hparse.
  exists text. eexists. split; [done|]. split; [exact Hparse|].
  intros Hin. apply list_elem_of_fmap in Hin as ([k j] & Hk & Hin).
  simpl in Hk. subst k.
  apply list_elem_of_fmap in Hin as ([k v] & [= -> ->] & Hin).
  unfold present in Hin. apply list_elem_of_filter in Hin as [Hdef Hin].
  simpl in Hdef. unfold fields in Hin.
  apply Object_fromEntries_elem in Hin as [Hin|Hin]; [by apply elem_of_nil in Hin|].
  apply list_elem_of_lookup in Hin as [i Hi].
  destruct (Forall2_lookup_r _ _ _ _ _ Hentries Hi) as (k' & Hk' & He).
  pose proof (convertEntry_key _ _ _ _ _ _ _ _ _ He) as Hkey. simpl in Hkey.
  subst k'. revert He. unfold convertEntry. rewrite Hprop.
  intros (s' & Hs' & (v' & Hv' & [= <-])%outcome_bind_Ok)%outcome_bind_Ok.
  rewrite outcome_resolved, Hres in Hs'. injection Hs' as <-.
  rewrite convertValue_empty_optional in Hv' by done.
  injection Hv' as <-. done.
Qed.

(** ** The fetcher *)

Lemma outcome_settle {A} (p : Promise A) :
  outcome (settle p) =
  match p with
  | Fulfilled a => Ok a
  | Rejected e => Throw e
  end.
Proof. by destruct p. Qed.

Lemma outcome_fetch browser fuel bodySchema references input :
  outcome (fetch (createBrowserFetcher browser fuel bodySchema references) input) =
  match outcome (request_headers browser input) with
  | Ok headers =>
      match outcome (request_body fuel bodySchema references input) with
      | Ok body =>
          match Promise_then
                  (window_fetch browser (fetch_request input headers body))
                  read_response with
          | Fulfilled result => Ok result
          | Rejected e =>
              Ok {| status := 400%N; result_type := type_text;
                    data := VString ("Client side error: " +:+ error_message e) |}
          end
      | Throw e => Throw e
      | OutOfFuel => OutOfFuel
      end
  | Throw e => Throw e
  | OutOfFuel => OutOfFuel
  end.
Proof.
  simpl. rewrite outcome_bind.
  destruct (outcome (request_headers browser input)) as [headers| |]; try done.
  rewrite outcome_bind.
  destruct (outcome (request_body fuel bodySchema references input))
    as [body| |]; try done.
  rewrite outcome_settle. by destruct (Promise_then _ _).
Qed.

(** Decoding is rejected exactly when the body reader the content type
    selects is: [res.json()] for [application/json], [res.text()]
    otherwise. *)
Lemma read_response_rejected res e :
  read_response res = Rejected e <->
  if String.prefix "application/json" (default "" (res_content_type res))
  then res_json res = Rejected e
  else res_text res = Rejected e.
Proof.
  unfold read_response.
  destruct (String.prefix "application/json" _).
  - destruct (res_json res); simpl; split; congruence.
  - destruct (res_text res); simpl; split; congruence.
Qed.

(** C1, as the code has it.  Once the headers and the body are built, the
    promise of [fetch] is fulfilled with a [FetchResult], never rejected:
    a rejection of the network call (network error, abort by the timeout)
    or of the decoding of the response becomes the result with status 400,
    type [text] and the message made of the error's name and message (or of
    its string form when it is not an [Error]).  An error thrown while the
    body is built is not caught: the promise is rejected with it. *)
Theorem fetch_settles browser fuel bodySchema references input headers :
  outcome (request_headers browser input) = Ok headers ->
  (forall body,
     outcome (request_body fuel bodySchema references input) = Ok body ->
     exists result,
       outcome (fetch (createBrowserFetcher browser fuel bodySchema references)
                  input) = Ok result /\
       (forall e,
          window_fetch browser (fetch_request input headers body) = Rejected e ->
          result = {| status := 400%N; result_type := type_text;
                      data := VString ("Client side error: " +:+ error_message e) |}) /\
       (forall res e,
          window_fetch browser (fetch_request input headers body) = Fulfilled res ->
          read_response res = Rejected e ->
          result = {| status := 400%N; result_type := type_text;
                      data := VString ("Client side error: " +:+ error_message e) |}) /\
       (forall res decoded,
          window_fetch browser (fetch_request input headers body) = Fulfilled res ->
          read_response res = Fulfilled decoded ->
          result = decoded)) /\
  (forall e,
     outcome (request_body fuel bodySchema references input) = Throw e ->
     outcome (fetch (createBrowserFetcher browser fuel bodySchema references)
                input) = Throw e) /\
  (forall name message,
     error_message (ErrorObject name message) = "[" +:+ name +:+ "] " +:+ message) /\
  (forall text, error_message (NonError text) = text).
Proof.
  intros Hheaders. rewrite outcome_fetch, Hheaders. repeat split.
  - intros body ->.
    destruct (window_fetch browser (fetch_request input headers body))
      as [res|e] eqn:Hnet; simpl.
    + destruct (read_response res) as [decoded|e] eqn:Hread.
      * exists decoded. repeat split; try done.
        -- intros res' e [= <-]. by rewrite Hread.
        -- intros res' decoded' [= <-]. rewrite Hread. by intros [= <-].
      * eexists. split; [reflexivity|]. repeat split; try done.
        -- intros res' e' [= <-]. rewrite Hread. by intros [= <-].
        -- intros res' decoded' [= <-]. by rewrite Hread.
    + eexists. split; [reflexivity|]. repeat split; try done.
      by intros e' [= <-].
  - by intros e ->.
Qed.

(** ** Further properties of value conversion *)

Lemma outcome_mret_Ok {A} (a b : A) : outcome (mret a : Run A) = Ok b <-> a = b.
Proof. simpl. split; congruence. Qed.

(** Conversion never returns [null]: an empty value is replaced or
    dropped, a [file] value is passed on only when it is not empty, and
    every other branch builds a value of its own.  So the second test of
    line 112, [!result], adds nothing for values of type [object]: a
    converted root that is falsy is never of type [object]. *)
Theorem convertValue_never_null fuel fieldName value schema references dynamicFields result :
  outcome (convertValue fuel fieldName value schema references dynamicFields) = Ok result ->
  result <> VNull /\
  (truthy result = false -> typeof result <> "object").
Proof.
  intros Hconv.
  assert (Hnull : result <> VNull); [|split; [done|by destruct result]].
  revert fieldName value schema result Hconv.
  induction fuel as [|fuel IH]; intros fieldName value schema result; [done|].
  simpl. destruct (isEmpty value && isRequired schema).
  { intros [= <-]. by destruct (type schema). }
  destruct (isEmpty value) eqn:Hempty; [by intros [= <-]|].
  assert (Hswitch :
    outcome (s ← resolved (getDynamicFieldSchema fieldName dynamicFields) references;
             convertValue fuel fieldName value s references dynamicFields)
    = Ok result -> result <> VNull).
  { intros (s & _ & Hs)%outcome_bind_Ok. by eapply IH. }
  assert (Hbool :
    outcome (mret (if is_string value "null" then VUndefined
                   else VBool (is_string value "true")) : Run Value) = Ok result ->
    result <> VNull).
  { intros [= <-]. by destruct (is_string value "null"). }
  destruct value, (type schema); try done; try (by intros [= <-]);
    by intros (? & _ & [= <-])%outcome_bind_Ok.
Qed.

(** ** Objects *)

Lemma obj_set_fresh k (v : Value) entries :
  k ∉ entries.*1 -> obj_set k v entries = entries ++ [(k, v)].
Proof.
  induction entries as [|[k0 x0] entries IH]; simpl; [done|].
  intros Hk. apply not_elem_of_cons in Hk as [Hne Hk].
  apply not_eq_sym, String.eqb_neq in Hne. rewrite Hne. by rewrite IH.
Qed.

Lemma fold_obj_set_NoDup (entries acc : list (string * Value)) :
  NoDup (acc.*1 ++ entries.*1) ->
  fold_left (fun o e => obj_set e.1 e.2 o) entries acc = acc ++ entries.
Proof.
  revert acc. induction entries as [|[k v] entries IH]; intros acc Hnodup; simpl.
  - by rewrite app_nil_r.
  - rewrite obj_set_fresh.
    + rewrite IH; [by rewrite <- app_assoc|].
      rewrite fmap_app. simpl. by rewrite <- app_assoc.
    + apply NoDup_app in Hnodup as (_ & Hdisj & _).
      intros Hin. apply (Hdisj k Hin). left.
Qed.

(** [Object.fromEntries] on entries with distinct keys keeps them as they
    are. *)
Lemma Object_fromEntries_NoDup (entries : list (string * Value)) :
  NoDup entries.*1 -> Object_fromEntries entries = VObject entries.
Proof.
  intros Hnodup. unfold Object_fromEntries. by rewrite fold_obj_set_NoDup.
Qed.

Lemma get_prop_NoDup (entries : list (string * Value)) k v :
  NoDup entries.*1 -> (k, v) ∈ entries -> get_prop (VObject entries) k = v.
Proof.
  intros Hnodup Hin. unfold get_prop. simpl.
  destruct (list_find _ _) as [[i [k' v']]|] eqn:Hfind.
  - apply list_find_Some in Hfind as (Hi & Hk & _). simpl in Hk. subst k'.
    apply list_elem_of_lookup in Hin as [j Hj]. simpl.
    assert (i = j) as ->.
    { eapply NoDup_lookup; [exact Hnodup| |].
      - rewrite list_lookup_fmap, Hi. reflexivity.
      - rewrite list_lookup_fmap, Hj. reflexivity. }
    congruence.
  - apply list_find_None in Hfind. rewrite Forall_forall in Hfind.
    by destruct (Hfind _ Hin).
Qed.

Lemma get_prop_missing (value : Value) k :
  k ∉ Object_keys value -> get_prop value k = VUndefined.
Proof.
  intros Hk. unfold get_prop.
  destruct (list_find _ _) as [[i [k' v']]|] eqn:Hfind; [|done].
  apply list_find_Some in Hfind as (Hi & Hk' & _). simpl in Hk'. subst k'.
  destruct Hk. unfold Object_keys. apply list_elem_of_fmap.
  exists (k, v'). split; [done|]. eapply list_elem_of_lookup_2, Hi.
Qed.

(** What the callback of [Object.keys(value).map] returns for a key. *)
Lemma outcome_convertEntry_Ok convert fieldName value properties
    additionalProperties references dynamicFields key e :
  outcome (convertEntry convert fieldName value properties additionalProperties
             references dynamicFields key) = Ok e <->
  e.1 = key /\
  match properties !! key with
  | Some property =>
      exists s, resolve property references = Some s /\
        outcome (convert (fieldName +:+ "." +:+ key) (get_prop value key) s) = Ok e.2
  | None =>
      if additionalProperties then
        exists s,
          resolve (getDynamicFieldSchema (fieldName +:+ "." +:+ key) dynamicFields)
            references = Some s /\
          outcome (convert (fieldName +:+ "." +:+ key) (get_prop value key) s) = Ok e.2
      else e.2 = get_prop value key
  end.
Proof.
  assert (Hbound : forall schema,
    outcome (s ← resolved schema references;
             v ← convert (fieldName +:+ "." +:+ key) (get_prop value key) s;
             mret (key, v)) = Ok e <->
    e.1 = key /\
    exists s, resolve schema references = Some s /\
      outcome (convert (fieldName +:+ "." +:+ key) (get_prop value key) s) = Ok e.2).
  { intros schema. rewrite outcome_bind_Ok. split.
    - intros (s & Hs & (v & Hv & [= <-])%outcome_bind_Ok).
      rewrite outcome_resolved in Hs.
      destruct (resolve schema references) as [s'|]; [|done].
      injection Hs as ->. split; [done|]. by exists s.
    - intros [Hkey (s & Hs & Hv)]. exists s.
      rewrite outcome_resolved, Hs. split; [done|].
      apply outcome_bind_Ok. exists e.2. split; [done|].
      destruct e as [k v]. simpl in *. by subst k. }
  unfold convertEntry.
  destruct (properties !! key) as [property|]; [apply Hbound|].
  destruct additionalProperties; [apply Hbound|].
  rewrite outcome_bind_Ok. split.
  - by intros (? & _ & [= <-]).
  - intros [Hkey Hprop]. exists tt. split; [done|].
    destruct e as [k v]. simpl in *. by subst.
Qed.

(** The object branch, for a value of type [object] that is not empty. *)
Lemma convertValue_object_eq fuel fieldName value schema properties
    additionalProperties references dynamicFields :
  type schema = t_object properties additionalProperties ->
  typeof value = "object" ->
  isEmpty value = false ->
  convertValue (S fuel) fieldName value schema references dynamicFields =
  (entries ←
     mapM (convertEntry
             (fun name v s => convertValue fuel name v s references dynamicFields)
             fieldName value properties additionalProperties references
             dynamicFields)
          (Object_keys value);
   mret (Object_fromEntries entries)).
Proof.
  intros Hty Hobj Hempty. simpl. rewrite Hempty, Hty, andb_false_l.
  by destruct value.
Qed.

Lemma convertEntry_keys convert fieldName value properties additionalProperties
    references dynamicFields keys entries :
  Forall2 (fun key e =>
    outcome (convertEntry convert fieldName value properties
               additionalProperties references dynamicFields key) = Ok e)
    keys entries ->
  entries.*1 = keys.
Proof.
  intros Hall. symmetry. apply list_eq_Forall2.
  apply Forall2_fmap_r. eapply Forall2_impl; [exact Hall|].
  intros key e He. simpl in He |- *. symmetry.
  exact (convertEntry_key _ _ _ _ _ _ _ _ _ He).
Qed.

Lemma outcome_convertValue_object fuel fieldName value schema properties
    additionalProperties references dynamicFields result :
  type schema = t_object properties additionalProperties ->
  typeof value = "object" ->
  isEmpty value = false ->
  NoDup (Object_keys value) ->
  outcome (convertValue (S fuel) fieldName value schema references
             dynamicFields) = Ok result <->
  exists entries, result = VObject entries /\
    Forall2 (fun key e =>
      outcome (convertEntry
                 (fun name v s =>
                    convertValue fuel name v s references dynamicFields)
                 fieldName value properties additionalProperties references
                 dynamicFields key) = Ok e)
      (Object_keys value) entries.
Proof.
  intros Hty Hobj Hempty Hnodup.
  rewrite (convertValue_object_eq _ _ _ _ _ _ _ _ Hty Hobj Hempty).
  rewrite outcome_bind_Ok. split.
  - intros (entries & Hentries%outcome_mapM_Ok & [= <-]).
    exists entries. split; [|done].
    apply Object_fromEntries_NoDup.
    by rewrite (convertEntry_keys _ _ _ _ _ _ _ _ _ Hentries).
  - intros (entries & -> & Hentries). exists entries.
    split; [by apply outcome_mapM_Ok|].
    rewrite Object_fromEntries_NoDup; [done|].
    by rewrite (convertEntry_keys _ _ _ _ _ _ _ _ _ Hentries).
Qed.

(** The entry the converted object holds for a key of the raw value. *)
Lemma converted_entry fuel fieldName value schema properties
    additionalProperties references dynamicFields result key :
  type schema = t_object properties additionalProperties ->
  typeof value = "object" ->
  isEmpty value = false ->
  NoDup (Object_keys value) ->
  key ∈ Object_keys value ->
  outcome (convertValue (S fuel) fieldName value schema references
             dynamicFields) = Ok result ->
  exists v,
    get_prop result key = v /\
    outcome (convertEntry
               (fun name v s => convertValue fuel name v s references dynamicFields)
               fieldName value properties additionalProperties references
               dynamicFields key) = Ok (key, v).
Proof.
  intros Hty Hobj Hempty Hnodup Hkey Hconv.
  apply (outcome_convertValue_object _ _ _ _ _ _ _ _ _ Hty Hobj Hempty Hnodup)
    in Hconv as (entries & -> & Hall).
  pose proof (convertEntry_keys _ _ _ _ _ _ _ _ _ Hall) as Hkeys.
  apply list_elem_of_lookup in Hkey as [i Hi].
  destruct (Forall2_lookup_l _ _ _ _ _ Hall Hi) as ([k v] & He & Hout).
  pose proof (convertEntry_key _ _ _ _ _ _ _ _ _ Hout) as Hk. simpl in Hk.
  subst k. exists v. split; [|done].
  apply get_prop_NoDup; [by rewrite Hkeys|].
  eapply list_elem_of_lookup_2, He.
Qed.


(** ** Runs and their diagnostics *)

Lemma warnings_bind {A B} (m : Run A) (f : A -> Run B) :
  warnings (m ≫= f) =
  warnings m ++ match outcome m with
                | Ok a => warnings (f a)
                | _ => []
                end.
Proof.
  unfold mbind, Run_mbind, Run_bind.
  destruct m as [w [a|e|]]; simpl; rewrite ?app_nil_r; try done.
  by destruct (f a).
Qed.



(** ** Fallback schemas *)

(** Conversion against the fallback of [getDynamicFieldSchema],
    [{type: 'null', isRequired: false}]. *)
Lemma convertValue_null_schema fuel fieldName value references dynamicFields :
  convertValue (S fuel) fieldName value (mkSchema t_null false) references
    dynamicFields =
  mret (if isEmpty value then VUndefined else VString (js_String value)).
Proof. simpl. destruct (isEmpty value) eqn:Hempty; [done|]. by destruct value. Qed.

Lemma getDynamicFieldSchema_unbound name dynamicFields :
  dynamicFields !! name = None \/ dynamicFields !! name = Some DynamicField_null ->
  getDynamicFieldSchema name dynamicFields = Concrete (mkSchema t_null false).
Proof. unfold getDynamicFieldSchema. by intros [->| ->]. Qed.

Lemma resolved_Concrete s references : resolved (Concrete s) references = mret s.
Proof. reflexivity. Qed.

(** A switcher field that is not empty converts as its value does under
    the schema its dynamic field is bound to; when no dynamic field is
    bound to the path (or one of kind [null]), the value is coerced with
    [String], whatever it is. *)
Theorem convertValue_switcher_binding fuel fieldName value schema references dynamicFields :
  type schema = t_switcher ->
  isEmpty value = false ->
  (forall bound s,
     dynamicFields !! fieldName = Some (DynamicField_field bound) ->
     resolve bound references = Some s ->
     convertValue (S fuel) fieldName value schema references dynamicFields =
     convertValue fuel fieldName value s references dynamicFields) /\
  (dynamicFields !! fieldName = None \/
   dynamicFields !! fieldName = Some DynamicField_null ->
   convertValue (S (S fuel)) fieldName value schema references dynamicFields =
   mret (VString (js_String value))).
Proof.
  intros Hty Hempty.
  assert (Hstep : forall n,
    convertValue (S n) fieldName value schema references dynamicFields =
    (s ← resolved (getDynamicFieldSchema fieldName dynamicFields) references;
     convertValue n fieldName value s references dynamicFields)).
  { intros n. simpl. rewrite Hempty, Hty, andb_false_l. by destruct value. }
  split.
  - intros bound s Hbound Hs. rewrite Hstep.
    unfold getDynamicFieldSchema, resolved. rewrite Hbound, Hs.
    by rewrite bind_ret_l.
  - intros Hunbound. rewrite Hstep.
    rewrite (getDynamicFieldSchema_unbound _ _ Hunbound).
    rewrite resolved_Concrete, bind_ret_l.
    by rewrite convertValue_null_schema, Hempty.
Qed.

(** An additional property for which no dynamic field is bound is dropped
    when its raw value is empty and coerced with [String] otherwise. *)
Theorem convertValue_additional_unbound fuel fieldName value schema properties
    references dynamicFields result key :
  type schema = t_object properties true ->
  properties !! key = None ->
  dynamicFields !! (fieldName +:+ "." +:+ key) = None \/
  dynamicFields !! (fieldName +:+ "." +:+ key) = Some DynamicField_null ->
  typeof value = "object" ->
  isEmpty value = false ->
  NoDup (Object_keys value) ->
  key ∈ Object_keys value ->
  outcome (convertValue (S (S fuel)) fieldName value schema references
             dynamicFields) = Ok result ->
  get_prop result key =
    if isEmpty (get_prop value key) then VUndefined
    else VString (js_String (get_prop value key)).
Proof.
  intros Hty Hprop Hunbound Hobj Hempty Hnodup Hkey Hconv.
  destruct (converted_entry _ _ _ _ _ _ _ _ _ _ Hty Hobj Hempty Hnodup Hkey
              Hconv) as (v & <- & Hout).
  apply outcome_convertEntry_Ok in Hout as [_ Hout].
  rewrite Hprop in Hout. destruct Hout as (s & Hs & Hv).
  rewrite (getDynamicFieldSchema_unbound _ _ Hunbound) in Hs.
  injection Hs as <-. rewrite convertValue_null_schema in Hv.
  by injection Hv.
Qed.

(** ** Values that do not have the shape of their schema *)

(** A value that is not an array under an [array] schema, and a value that
    is not of type [object] under an [object] schema, are not refused:
    they are coerced with [String], as under a [string] schema. *)
Theorem convertValue_shape_mismatch fuel fieldName value schema references dynamicFields :
  isEmpty value = false ->
  (exists items, type schema = t_array items) /\ Array_isArray value = false \/
  (exists properties additionalProperties,
     type schema = t_object properties additionalProperties) /\
    typeof value <> "object" \/
  type schema = t_string \/ type schema = t_null ->
  convertValue (S fuel) fieldName value schema references dynamicFields =
  mret (VString (js_String value)).
Proof.
  intros Hempty Hshape. simpl. rewrite Hempty, andb_false_l.
  destruct Hshape as [[[items ->] Harray]|[[(properties & ap & ->) Hobj]|[-> | ->]]];
    by destruct value.
Qed.

(** ** Request headers *)

Lemma outcome_Headers_append browser (headers : Headers) name value :
  outcome (Headers_append browser headers name value) =
  if header_accepted browser name value
  then Ok (headers ++ [(name, value)])
  else Throw (ErrorObject "TypeError" "Invalid header").
Proof. unfold Headers_append. by destruct (header_accepted _ _ _). Qed.



(** ** The outcome of a request *)

(** A response that arrives and decodes is passed on with its own status,
    whatever it is: [type] is [json] when the content type starts with
    [application/json] (the data being what [res.json()] gives), [html]
    when it starts with [text/html], and [text] otherwise, a missing
    content type included (the data being what [res.text()] gives). *)
Theorem fetch_response browser fuel bodySchema references input headers body res :
  outcome (request_headers browser input) = Ok headers ->
  outcome (request_body fuel bodySchema references input) = Ok body ->
  window_fetch browser (fetch_request input headers body) = Fulfilled res ->
  (forall data,
     String.prefix "application/json" (default "" (res_content_type res)) = true ->
     res_json res = Fulfilled data ->
     outcome (fetch (createBrowserFetcher browser fuel bodySchema references)
                input) =
       Ok {| status := res_status res; result_type := type_json; data := data |}) /\
  (forall text,
     String.prefix "application/json" (default "" (res_content_type res)) = false ->
     res_text res = Fulfilled text ->
     outcome (fetch (createBrowserFetcher browser fuel bodySchema references)
                input) =
       Ok {| status := res_status res;
             result_type :=
               if String.prefix "text/html" (default "" (res_content_type res))
               then type_html else type_text;
             data := VString text |}) /\
  (res_content_type res = None ->
   forall text, res_text res = Fulfilled text ->
     outcome (fetch (createBrowserFetcher browser fuel bodySchema references)
                input) =
       Ok {| status := res_status res; result_type := type_text;
             data := VString text |}).
Proof.
  intros Hheaders Hbody Hnet.
  rewrite outcome_fetch, Hheaders, Hbody, Hnet. simpl.
  unfold read_response. repeat split.
  - intros data -> ->. reflexivity.
  - intros text -> ->. reflexivity.
  - intros -> text ->. reflexivity.
Qed.

(** Without a body schema the body value and the dynamic fields of the
    input are not looked at: the request has no body, the promise is
    fulfilled whenever the headers are accepted, and the run is the same
    for every body value, every dynamic-field map and every fuel. *)
Theorem fetch_without_schema browser fuel references input headers :
  outcome (request_headers browser input) = Ok headers ->
  (exists result,
     outcome (fetch (createBrowserFetcher browser fuel None references) input)
       = Ok result /\
     settle (Promise_catch
               (Promise_then
                  (window_fetch browser (fetch_request input headers BodyUndefined))
                  read_response)
               client_side_error) = mkRun [] (Ok result)) /\
  forall fuel' references' body dynamicFields,
    fetch (createBrowserFetcher browser fuel' None references')
      {| input_url := input_url input;
         input_method := input_method input;
         input_type := input_type input;
         input_header := input_header input;
         input_body := body;
         input_dynamicFields := dynamicFields |} =
    fetch (createBrowserFetcher browser fuel None references) input.
Proof.
  intros Hheaders. split; [|done].
  rewrite outcome_fetch, Hheaders. simpl.
  destruct (Promise_then _ _) as [result|e]; simpl; eauto.
Qed.

Lemma outcome_foldM_fuel browser (header : list (string * Value)) keys (acc : Headers) :
  outcome
    (foldM (fun headers key =>
              match get_prop (VObject header) key with
              | VString paramValue =>
                  if 0 <? String.length paramValue
                  then Headers_append browser headers key paramValue
                  else mret headers
              | _ => mret headers
              end) acc keys) <> OutOfFuel.
Proof.
  revert acc. induction keys as [|key keys IH]; intros acc; simpl; [done|].
  rewrite outcome_bind.
  destruct (get_prop (VObject header) key); simpl; try apply IH.
  destruct (0 <? String.length s); simpl; [|apply IH].
  rewrite outcome_Headers_append. by destruct (header_accepted _ _ _).
Qed.

(** With dynamic fields that bind no path to a switcher (none at all, for
    one), [fetch] always settles: with fuel [2 * depth body + 2] its
    promise is fulfilled or rejected. *)
Theorem fetch_terminates browser fuel bodySchema references input :
  switcher_free references (default ∅ (input_dynamicFields input)) ->
  2 * depth (input_body input) + 2 <= fuel ->
  outcome (fetch (createBrowserFetcher browser fuel bodySchema references) input)
  <> OutOfFuel.
Proof.
  intros Hfree Hfuel. rewrite outcome_fetch.
  destruct (outcome (request_headers browser input)) as [headers| |] eqn:Hheaders;
    try done.
  - destruct (outcome (request_body fuel bodySchema references input))
      as [body| |] eqn:Hbody; try done.
    + by destruct (Promise_then _ _).
    + exfalso. revert Hbody. unfold request_body.
      destruct bodySchema as [schema|]; [|done].
      unfold createBodyFromValue. rewrite outcome_bind_OutOfFuel.
      intros [Hconv|(result & _ & Hrest)].
      * revert Hconv. apply convertValue_enough_fuel; [done|].
        destruct (is_switcher (type schema)); lia.
      * destruct (input_type input); [done|].
        by destruct (negb _ || negb _).
  - exfalso. revert Hheaders. unfold request_headers.
    rewrite outcome_bind_OutOfFuel. intros [Hfirst|(first & _ & Hrest)].
    + destruct (input_type input); [|done].
      simpl in Hfirst. rewrite outcome_Headers_append in Hfirst.
      by destruct (header_accepted _ _ _).
    + by apply outcome_foldM_fuel in Hrest.
Qed.

(** ** More on form-data bodies *)

(** A [FormData] built by [createBodyFromValue] has at most one entry for
    a key, and none for a key that the converted root does not have: the
    last [set] of the loop leaves a single entry. *)
Theorem createBodyFromValue_form_data_single_entry
    fuel value schema references dynamicFields formData :
  outcome (createBodyFromValue fuel form_data value schema references dynamicFields) =
    Ok (BodyFormData formData) ->
  exists result,
    outcome (convertValue fuel "body" value schema references dynamicFields) = Ok result /\
    forall key,
      length (FormData_getAll key formData) <= 1 /\
      (key ∉ Object_keys result -> FormData_getAll key formData = []).
Proof.
  rewrite createBodyFromValue_form_data.
  destruct (outcome (convertValue _ _ _ _ _ _)) as [result| |]; try done.
  destruct (negb _ || negb _); [done|]. intros [= <-].
  exists result. split; [done|]. intros key.
  rewrite form_data_entries. case_decide; [|split; [simpl; lia|done]].
  split; [|done]. unfold entries_of_property.
  destruct (truthy _ && negb _); [simpl; lia|].
  destruct (instanceof_File _); simpl; lia.
Qed.

(** In a form-data body a [File] is attached as it is, and any other
    truthy value as one text entry holding its JSON text; so a string that
    is not empty is sent with its JSON quotes and escapes. *)
Theorem createBodyFromValue_form_data_text
    fuel value schema references dynamicFields formData :
  outcome (createBodyFromValue fuel form_data value schema references dynamicFields) =
    Ok (BodyFormData formData) ->
  exists result,
    outcome (convertValue fuel "body" value schema references dynamicFields) = Ok result /\
    forall key, key ∈ Object_keys result ->
      (forall name, get_prop result key = VFile name ->
         FormData_getAll key formData = [EntryFile name]) /\
      (truthy (get_prop result key) = true ->
       instanceof_File (get_prop result key) = false ->
       exists text document,
         FormData_getAll key formData = [EntryString text] /\
         to_json (get_prop result key) = Some document /\
         JSON_parse text = Some document) /\
      (forall s, get_prop result key = VString s -> s <> "" ->
         FormData_getAll key formData = [EntryString (QuoteJSONString s)]).
Proof.
  rewrite createBodyFromValue_form_data.
  destruct (outcome (convertValue _ _ _ _ _ _)) as [result| |]; try done.
  destruct (negb _ || negb _); [done|]. intros [= <-].
  exists result. split; [done|]. intros key Hkey.
  rewrite form_data_entries, decide_True by done.
  unfold entries_of_property. repeat split.
  - intros name ->. reflexivity.
  - intros Htruthy Hfile. rewrite Htruthy, Hfile. simpl.
    destruct (JSON_stringify (get_prop result key)) as [text|] eqn:Htext.
    + destruct (JSON_stringify_parse _ _ Htext) as [Hdoc Hparse]. eauto.
    + apply JSON_stringify_undefined in Htext. by rewrite Htext in Htruthy.
  - intros s -> Hs. simpl.
    apply String.eqb_neq in Hs. by rewrite Hs.
Qed.

(** ** What the conversion throws and warns about *)

Lemma convertValue_cases fuel fieldName value schema references dynamicFields :
  (exists v,
     convertValue (S fuel) fieldName value schema references dynamicFields = mret v) \/
  (exists items itemSchema,
     value = VArray items /\
     convertValue (S fuel) fieldName value schema references dynamicFields =
       (converted ←
          imapM (convertItem
                   (fun name v s =>
                      convertValue fuel name v s references dynamicFields)
                   fieldName itemSchema references) 0 items;
        mret (VArray converted))) \/
  convertValue (S fuel) fieldName value schema references dynamicFields =
    (s ← resolved (getDynamicFieldSchema fieldName dynamicFields) references;
     convertValue fuel fieldName value s references dynamicFields) \/
  (exists properties additionalProperties,
     convertValue (S fuel) fieldName value schema references dynamicFields =
       (entries ←
          mapM (convertEntry
                  (fun name v s =>
                     convertValue fuel name v s references dynamicFields)
                  fieldName value properties additionalProperties
                  references dynamicFields)
               (Object_keys value);
        mret (Object_fromEntries entries))).
Proof.
  simpl. destruct (isEmpty value && isRequired schema); [eauto|].
  destruct (isEmpty value); [eauto|].
  destruct value as [| |b|n|t|name|items|fields];
    destruct (type schema) as [| | | | | | |]; eauto 10.
Qed.







Lemma warnings_mapM_inv {A B} (f : A -> Run B) l w :
  w ∈ warnings (mapM f l) -> exists x, x ∈ l /\ w ∈ warnings (f x).
Proof.
  induction l as [|x l IH]; simpl; [by intros ?%elem_of_nil|].
  rewrite warnings_bind. intros [H|H]%elem_of_app.
  - exists x. split; [left|done].
  - destruct (outcome (f x)); try by apply elem_of_nil in H.
    rewrite warnings_bind in H. apply elem_of_app in H as [H|H].
    + destruct (IH H) as (x' & Hin & Hx'). exists x'. split; [by right|done].
    + destruct (outcome (mapM f l)); by apply elem_of_nil in H.
Qed.

Lemma warnings_imapM_inv {A B} (f : nat -> A -> Run B) index l w :
  w ∈ warnings (imapM f index l) -> exists i x, x ∈ l /\ w ∈ warnings (f i x).
Proof.
  revert index. induction l as [|x l IH]; intros index; simpl;
    [by intros ?%elem_of_nil|].
  rewrite warnings_bind. intros [H|H]%elem_of_app.
  - exists index, x. split; [left|done].
  - destruct (outcome (f index x)); try by apply elem_of_nil in H.
    rewrite warnings_bind in H. apply elem_of_app in H as [H|H].
    + destruct (IH _ H) as (i & x' & Hin & Hx'). exists i, x'.
      split; [by right|done].
    + destruct (outcome (imapM f (S index) l)); by apply elem_of_nil in H.
Qed.

Lemma warnings_resolved schema references :
  warnings (resolved schema references) = [].
Proof. unfold resolved. by destruct (resolve _ _). Qed.

(** Every warning of a conversion names a path below the field that is
    converted: the field name, a dot, and the keys and indexes that lead to
    the value left unconverted. *)
Theorem convertValue_warnings_path
    fuel fieldName value schema references dynamicFields w :
  w ∈ warnings (convertValue fuel fieldName value schema references dynamicFields) ->
  exists rest, w = fieldName +:+ "." +:+ rest.
Proof.
  revert fieldName value schema.
  induction fuel as [|fuel IH]; intros fieldName value schema;
    [by intros ?%elem_of_nil|].
  assert (Hrec : forall name v schema',
    w ∈ warnings (s ← resolved schema' references;
                  convertValue fuel name v s references dynamicFields) ->
    exists rest, w = name +:+ "." +:+ rest).
  { intros name v schema'. rewrite warnings_bind, warnings_resolved. simpl.
    destruct (outcome (resolved schema' references)) as [s| |];
      try by intros ?%elem_of_nil.
    apply IH. }
  assert (Hpair : forall name v schema' (key : string),
    w ∈ warnings (s ← resolved schema' references;
                  v' ← convertValue fuel name v s references dynamicFields;
                  mret (key, v')) ->
    exists rest, w = name +:+ "." +:+ rest).
  { intros name v schema' key. rewrite warnings_bind, warnings_resolved. simpl.
    destruct (outcome (resolved schema' references)) as [s| |];
      try by intros ?%elem_of_nil.
    rewrite warnings_bind. intros [H|H]%elem_of_app; [by eapply IH|].
    destruct (outcome (convertValue _ _ _ _ _ _)); by apply elem_of_nil in H. }
  assert (Hbelow : forall step,
    (exists rest, w = (fieldName +:+ "." +:+ step) +:+ "." +:+ rest) ->
    exists rest, w = fieldName +:+ "." +:+ rest).
  { intros step [rest ->]. exists (step +:+ "." +:+ rest).
    by rewrite !append_assoc. }
  destruct (convertValue_cases fuel fieldName value schema references dynamicFields)
    as [(v & ->)|[(items & itemSchema & _ & ->)|[->|(properties & ap & ->)]]].
  - by intros ?%elem_of_nil.
  - rewrite warnings_bind. intros [H|H]%elem_of_app.
    + apply warnings_imapM_inv in H as (i & x & _ & H).
      unfold convertItem in H. eapply Hbelow, Hrec, H.
    + destruct (outcome (imapM _ _ _)); by apply elem_of_nil in H.
  - apply Hrec.
  - rewrite warnings_bind. intros [H|H]%elem_of_app.
    + apply warnings_mapM_inv in H as (key & _ & H).
      unfold convertEntry in H.
      destruct (properties !! key) as [property|];
        [eapply Hbelow, Hpair, H|].
      destruct ap; [eapply Hbelow, Hpair, H|].
      rewrite warnings_bind in H. simpl in H.
      apply elem_of_cons in H as [->|H]; [by exists key|].
      by apply elem_of_nil in H.
    + destruct (outcome (mapM _ _)); by apply elem_of_nil in H.
Qed.

(** ** A single file in a form *)

(** A [File] under a property declared with a [file] schema is uploaded as
    that file: the form has one entry for the key, the file itself. *)
Theorem createBodyFromValue_form_data_upload
    fuel value schema properties additionalProperties references dynamicFields
    key property s name formData :
  type schema = t_object properties additionalProperties ->
  properties !! key = Some property ->
  resolve property references = Some s ->
  type s = t_file ->
  typeof value = "object" ->
  NoDup (Object_keys value) ->
  key ∈ Object_keys value ->
  get_prop value key = VFile name ->
  outcome (createBodyFromValue (S (S fuel)) form_data value schema references
             dynamicFields) = Ok (BodyFormData formData) ->
  FormData_getAll key formData = [EntryFile name].
Proof.
  intros Hty Hprop Hres Hfile Hobj Hnodup Hkey Hvalue.
  assert (Hempty : isEmpty value = false).
  { by destruct value. }
  rewrite createBodyFromValue_form_data.
  destruct (outcome (convertValue _ _ _ _ _ _)) as [result| |] eqn:Hconv; try done.
  destruct (negb _ || negb _); [done|]. intros [= <-].
  destruct (converted_entry _ _ _ _ _ _ _ _ _ _ Hty Hobj Hempty Hnodup Hkey Hconv)
    as (v & Hv & He).
  apply (outcome_convertValue_object _ _ _ _ _ _ _ _ _ Hty Hobj Hempty Hnodup)
    in Hconv as (entries & -> & Hall).
  pose proof (convertEntry_keys _ _ _ _ _ _ _ _ _ Hall) as Hkeys.
  rewrite form_data_entries.
  rewrite decide_True by (unfold Object_keys; simpl; by rewrite Hkeys).
  rewrite Hv. revert He. unfold convertEntry. rewrite Hprop.
  intros (s' & Hs' & (v' & Hv' & [= <-])%outcome_bind_Ok)%outcome_bind_Ok.
  rewrite outcome_resolved, Hres in Hs'. injection Hs' as <-.
  revert Hv'. rewrite Hvalue. simpl. rewrite Hfile.
  destruct (isRequired s); by intros [= <-].
Qed.

End Properties.

(* ===================================================================== *)
(** * The properties on concrete inputs *)
(* ===================================================================== *)

Section Checks.
#[local] Existing Instance IntNumbers.

(** C4 on the required boolean field ["public"] left empty. *)
Lemma convertValue_empty_required_witness :
  isEmpty (VString "") = true /\
  isRequired (mkSchema t_boolean true) = true /\
  convertValue 1 "body.public" (VString "") (mkSchema t_boolean true) ∅ ∅ =
    mret (VBool false).
Proof.
  split; [reflexivity|]. split; [reflexivity|].
  destruct (convertValue_empty_required 0 "body.public" (VString "")
              (mkSchema t_boolean true) ∅ ∅ eq_refl eq_refl)
    as (r & Hr & Hbool & _).
  rewrite Hr. f_equal. apply Hbool. reflexivity.
Defined.

(** C8 on the boolean [true]: it converts to [false]. *)
Lemma convertValue_boolean_witness :
  isEmpty (VBool true) = false /\
  type (mkSchema t_boolean true) = t_boolean /\
  convertValue 1 "body.public" (VBool true) (mkSchema t_boolean true) ∅ ∅ =
    mret (VBool false).
Proof.
  split; [reflexivity|]. split; [reflexivity|].
  destruct (convertValue_boolean 0 "body.public" (VBool true)
              (mkSchema t_boolean true) ∅ ∅ eq_refl eq_refl)
    as (r & Hr & _ & _ & _ & Htrue).
  rewrite Hr. f_equal. apply Htrue. reflexivity.
Defined.

(** C6 on three raw items, the second one empty. *)
Lemma convertValue_array_witness :
  type numbers_schema = t_array (Reference "Count") /\
  outcome (convertValue 2 "body" (VArray numbers_value) numbers_schema
             numbers_references ∅) =
    Ok (VArray [VNumber (IInt 1); VUndefined; VNumber (IInt 30)]).
Proof.
  split; [reflexivity|].
  apply (proj2 (convertValue_array 1 "body" numbers_value numbers_schema
                  (Reference "Count") numbers_references ∅ eq_refl)).
  split; [reflexivity|].
  intros [|[|[|i]]] item Hitem; [| | |discriminate Hitem];
    injection Hitem as <-;
    exists (mkSchema t_number false); eexists;
    (split; [reflexivity|]);
    (split; [reflexivity|reflexivity]).
Defined.

(** C9 on an absent root value under an optional schema. *)
Lemma createBodyFromValue_form_data_not_object_witness :
  outcome (convertValue 1 "body" VUndefined (mkSchema t_string false) ∅ ∅) =
    Ok VUndefined /\
  (typeof VUndefined <> "object" \/ truthy VUndefined = false) /\
  outcome (createBodyFromValue 1 form_data VUndefined (mkSchema t_string false)
             ∅ ∅) =
    Throw (ErrorObject "Error"
             "Unsupported body type: undefined, expected: object").
Proof.
  split; [reflexivity|]. split; [right; reflexivity|].
  apply (createBodyFromValue_form_data_not_object 1 VUndefined
           (mkSchema t_string false) ∅ ∅ VUndefined eq_refl).
  right. reflexivity.
Defined.

(** C10 on the upload form: the required fields ["public"] and ["title"],
    defaulted to [false] and to the empty string, have no entry. *)
Lemma createBodyFromValue_form_data_omits_falsy_witness :
  outcome (createBodyFromValue 3 form_data upload_value upload_schema ∅ ∅) =
    Ok (BodyFormData [("avatar", EntryFile "me.png");
                      ("files", EntryString "[{},{}]")]) /\
  FormData_getAll "public"
    [("avatar", EntryFile "me.png"); ("files", EntryString "[{},{}]")] = [] /\
  FormData_getAll "title"
    [("avatar", EntryFile "me.png"); ("files", EntryString "[{},{}]")] = [].
Proof.
  assert (Hbody :
    outcome (createBodyFromValue 3 form_data upload_value upload_schema ∅ ∅) =
    Ok (BodyFormData [("avatar", EntryFile "me.png");
                      ("files", EntryString "[{},{}]")]))
    by reflexivity.
  split; [exact Hbody|].
  destruct (createBodyFromValue_form_data_omits_falsy 3 upload_value
              upload_schema ∅ ∅ _ Hbody) as (result & Hresult & _ & Hdefault).
  assert (result = upload_converted) as ->.
  { assert (H : outcome (convertValue 3 "body" upload_value upload_schema ∅ ∅)
                = Ok upload_converted) by reflexivity.
    rewrite H in Hresult. by injection Hresult. }
  split; apply Hdefault; [left|right]; reflexivity.
Defined.

(** C2 on the upload form: the two files under ["files"] end up as one
    text entry. *)
Lemma createBodyFromValue_form_data_file_array_witness :
  outcome (convertValue 3 "body" upload_value upload_schema ∅ ∅) =
    Ok upload_converted /\
  typeof upload_converted = "object" /\
  "files" ∈ Object_keys upload_converted /\
  get_prop upload_converted "files" = VArray [VFile "a.txt"; VFile "b.txt"] /\
  forallb instanceof_File [VFile "a.txt"; VFile "b.txt"] = true /\
  exists formData text,
    outcome (createBodyFromValue 3 form_data upload_value upload_schema ∅ ∅) =
      Ok (BodyFormData formData) /\
    JSON_stringify (VArray [VFile "a.txt"; VFile "b.txt"]) = Some text /\
    FormData_getAll "files" formData = [EntryString text].
Proof.
  assert (Hconv : outcome (convertValue 3 "body" upload_value upload_schema ∅ ∅)
                  = Ok upload_converted) by reflexivity.
  assert (Hkey : "files" ∈ Object_keys upload_converted).
  { right. left. }
  repeat (split; [first [exact Hconv | exact Hkey | reflexivity]|]).
  apply (createBodyFromValue_form_data_file_array 3 upload_value upload_schema
           ∅ ∅ upload_converted "files" [VFile "a.txt"; VFile "b.txt"]
           Hconv eq_refl Hkey eq_refl eq_refl).
Defined.

(** What the two files should have been, and what the body holds. *)
Lemma createBodyFromValue_form_data_file_array_lost :
  exists formData,
    outcome (createBodyFromValue 3 form_data upload_value upload_schema ∅ ∅) =
      Ok (BodyFormData formData) /\
    FormData_getAll "files" formData = [EntryString "[{},{}]"] /\
    FormData_getAll "files" formData <> [EntryFile "a.txt"; EntryFile "b.txt"].
Proof. eexists. split; [reflexivity|]. by split. Qed.

(** C3 on [{a: "x", b: ""}]: the body is a JSON text. *)
Lemma createBodyFromValue_json_witness :
  outcome (convertValue 3 "body" ab_value ab_schema ∅ ∅) =
    Ok (VObject [("a", VString "x"); ("b", VUndefined)]) /\
  VObject [("a", VString "x"); ("b", VUndefined)] <> VUndefined /\
  exists text document,
    outcome (createBodyFromValue 3 json ab_value ab_schema ∅ ∅) =
      Ok (BodyString text) /\
    to_json (VObject [("a", VString "x"); ("b", VUndefined)]) = Some document /\
    JSON_parse text = Some document.
Proof.
  assert (Hconv : outcome (convertValue 3 "body" ab_value ab_schema ∅ ∅) =
                  Ok (VObject [("a", VString "x"); ("b", VUndefined)]))
    by reflexivity.
  split; [exact Hconv|]. split; [discriminate|].
  apply (proj1 (createBodyFromValue_json 3 ab_value ab_schema ∅ ∅ _ Hconv)).
  discriminate.
Defined.

(** The scenarios of the specification: [{a: "x"}] under
    [{a: string, b?: number}], and a switcher bound to a number. *)
Lemma ab_body_document :
  exists text,
    outcome (createBodyFromValue 3 json (VObject [("a", VString "x")]) ab_schema
               ∅ ∅) = Ok (BodyString text) /\
    JSON_parse text = Some (JObject [("a", JString "x")]).
Proof. eexists. split; reflexivity. Qed.

Lemma kind_converted :
  convertValue 3 "body" kind_value kind_schema ∅ kind_fields =
  mret (VObject [("kind", VNumber (IInt 42))]).
Proof. reflexivity. Qed.

(** C3 as stated fails on an absent body under an optional schema: no fuel
    gives a text. *)
Lemma createBodyFromValue_json_undefined :
  outcome (createBodyFromValue 1 json VUndefined (mkSchema t_string false) ∅ ∅) =
    Ok BodyUndefined /\
  ~ exists fuel text,
      outcome (createBodyFromValue fuel json VUndefined (mkSchema t_string false)
                 ∅ ∅) = Ok (BodyString text).
Proof.
  split; [reflexivity|].
  intros (fuel & text & H). destruct fuel; discriminate H.
Qed.

(** C5 on the optional field ["b"] left empty. *)
Lemma convertValue_empty_optional_absent_witness :
  isEmpty (VString "") = true /\
  isRequired (mkSchema t_number false) = false /\
  convertValue 1 "body.b" (VString "") (mkSchema t_number false) ∅ ∅ =
    mret VUndefined /\
  exists text members,
    JSON_stringify (VObject [("a", VString "x"); ("b", VUndefined)]) = Some text /\
    JSON_parse text = Some (JObject members) /\
    "b" ∉ members.*1.
Proof.
  split; [reflexivity|]. split; [reflexivity|].
  destruct (convertValue_empty_optional_absent 0 "body.b" (VString "")
              (mkSchema t_number false) ∅ ∅ eq_refl eq_refl) as [Hconv Hjson].
  split; [exact Hconv|].
  apply Hjson. intros v Hv.
  apply elem_of_cons in Hv as [Hv|Hv]; [discriminate Hv|].
  apply list_elem_of_singleton in Hv. by injection Hv.
Defined.

(** C7 on a switcher field bound to a number. *)
Lemma convertValue_terminates_witness :
  switcher_free ∅ kind_fields /\
  terminates (fun fuel => convertValue fuel "body" kind_value kind_schema ∅ kind_fields) /\
  outcome (convertValue 4 "body" kind_value kind_schema ∅ kind_fields) <> OutOfFuel.
Proof.
  assert (Hfree : switcher_free ∅ kind_fields).
  { apply map_Forall_singleton. reflexivity. }
  split; [exact Hfree|].
  destruct (convertValue_terminates "body" kind_value kind_schema ∅ kind_fields
              Hfree) as [Hterm Hbound].
  split; [exact Hterm|]. apply (Hbound 4). simpl. lia.
Defined.

(** C7 as stated fails on a switcher field bound to a switcher: no fuel
    sees the end of the conversion. *)
Lemma convertValue_switcher_diverges :
  ~ terminates (fun fuel =>
      convertValue fuel "body" (VString "x") switcher_schema ∅ looping_fields).
Proof.
  intros [fuel Hfuel]. apply Hfuel.
  apply (convertValue_switcher_loop fuel "body" (VString "x") true true).
  - reflexivity.
  - apply lookup_singleton_eq.
Qed.

(** C1 on a JSON request that the timeout aborts. *)
Lemma fetch_settles_witness :
  outcome (request_headers timing_out json_input) =
    Ok [("Content-Type", "application/json"); ("Authorization", "Bearer t")] /\
  outcome (fetch (createBrowserFetcher timing_out 3 (Some ab_schema) ∅) json_input) =
    Ok {| status := 400%N; result_type := type_text;
          data := VString "Client side error: [TimeoutError] signal timed out" |}.
Proof.
  assert (Hheaders : outcome (request_headers timing_out json_input) =
    Ok [("Content-Type", "application/json"); ("Authorization", "Bearer t")])
    by reflexivity.
  split; [exact Hheaders|].
  destruct (fetch_settles timing_out 3 (Some ab_schema) ∅ json_input _ Hheaders)
    as [Hbody _].
  destruct (outcome (request_body 3 (Some ab_schema) ∅ json_input))
    as [body| |] eqn:Hrun; [|discriminate Hrun..].
  destruct (Hbody body eq_refl) as (result & Hresult & Hrejected & _).
  rewrite Hresult. f_equal.
  apply (Hrejected (ErrorObject "TimeoutError" "signal timed out")).
  reflexivity.
Defined.

(** C1 as stated fails on a form-data request whose converted root is not
    an object: the error of the body builder rejects the promise. *)
Lemma fetch_rejects :
  outcome (fetch (createBrowserFetcher timing_out 1
                    (Some (mkSchema t_string false)) ∅) empty_form_input) =
    Throw (ErrorObject "Error"
             "Unsupported body type: undefined, expected: object") /\
  ~ exists result,
      outcome (fetch (createBrowserFetcher timing_out 1
                        (Some (mkSchema t_string false)) ∅) empty_form_input) =
      Ok result.
Proof.
  assert (H : outcome (fetch (createBrowserFetcher timing_out 1
                    (Some (mkSchema t_string false)) ∅) empty_form_input) =
    Throw (ErrorObject "Error"
             "Unsupported body type: undefined, expected: object"))
    by reflexivity.
  split; [exact H|]. intros [result Hresult]. rewrite H in Hresult. discriminate.
Qed.

End Checks.

(* ===================================================================== *)
(** * The further properties on concrete inputs *)
(* ===================================================================== *)

Section MoreChecks.
#[local] Existing Instance IntNumbers.



Lemma open_keys_distinct : NoDup (Object_keys open_value).
Proof. apply (bool_decide_unpack _). reflexivity. Qed.

Lemma upload_keys_distinct : NoDup (Object_keys upload_value).
Proof. apply (bool_decide_unpack _). reflexivity. Qed.

(** The string ["null"] under a boolean schema: the result is falsy and
    not of type [object]. *)
Lemma convertValue_never_null_witness :
  outcome (convertValue 1 "body" (VString "null") (mkSchema t_boolean true) ∅ ∅) =
    Ok VUndefined /\
  VUndefined <> VNull /\
  (truthy VUndefined = false -> typeof VUndefined <> "object").
Proof.
  split; [reflexivity|].
  apply (convertValue_never_null 1 "body" (VString "null")
           (mkSchema t_boolean true) ∅ ∅ VUndefined).
  reflexivity.
Defined.



(** A switcher bound to a number, and the same switcher left unbound. *)
Lemma convertValue_switcher_binding_witness :
  convertValue 2 "body.kind" (VString "42") switcher_schema ∅ kind_fields =
    mret (VNumber (IInt 42)) /\
  convertValue 2 "body.kind" (VString "42") switcher_schema ∅ ∅ =
    mret (VString "42").
Proof.
  split.
  - rewrite (proj1 (convertValue_switcher_binding 1 "body.kind" (VString "42")
                      switcher_schema ∅ kind_fields eq_refl eq_refl)
               (required t_number) (mkSchema t_number true) eq_refl eq_refl).
    reflexivity.
  - apply (proj2 (convertValue_switcher_binding 0 "body.kind" (VString "42")
                    switcher_schema ∅ ∅ eq_refl eq_refl)).
    left. reflexivity.
Defined.

(** The additional property ["n"] of [open_value], with no dynamic field:
    the number 7 becomes the string ["7"]. *)
Lemma convertValue_additional_unbound_witness :
  outcome (convertValue 2 "body" open_value open_schema ∅ ∅) =
    Ok (VObject [("a", VString "x"); ("n", VString "7"); ("e", VUndefined)]) /\
  get_prop (VObject [("a", VString "x"); ("n", VString "7"); ("e", VUndefined)])
    "n" = VString "7".
Proof.
  split; [reflexivity|].
  assert (Hunbound :
    (∅ : gmap string DynamicField) !! ("body" +:+ "." +:+ "n") = None \/
    (∅ : gmap string DynamicField) !! ("body" +:+ "." +:+ "n") =
      Some DynamicField_null).
  { left. reflexivity. }
  apply (convertValue_additional_unbound 0 "body" open_value open_schema
           (list_to_map [("a", required t_string)]) ∅ ∅
           (VObject [("a", VString "x"); ("n", VString "7"); ("e", VUndefined)])
           "n" eq_refl eq_refl Hunbound eq_refl eq_refl
           open_keys_distinct).
  - right. left.
  - reflexivity.
Defined.

(** A number under an object schema is coerced to a string. *)
Lemma convertValue_shape_mismatch_witness :
  isEmpty seven = false /\
  typeof seven <> "object" /\
  convertValue 1 "body" seven ab_schema ∅ ∅ = mret (VString "7").
Proof.
  split; [reflexivity|]. split; [discriminate|].
  apply (convertValue_shape_mismatch 0 "body" seven ab_schema ∅ ∅ eq_refl).
  right. left. split; [|discriminate]. eexists. eexists. reflexivity.
Defined.

(** A JSON request answered with 201 and a JSON document. *)
Lemma fetch_response_witness :
  outcome (fetch (createBrowserFetcher creating 3 (Some ab_schema) ∅) json_input) =
    Ok {| status := 201%N; result_type := type_json;
          data := VObject [("id", VNumber (IInt 1))] |}.
Proof.
  assert (Hheaders : outcome (request_headers creating json_input) =
    Ok [("Content-Type", "application/json"); ("Authorization", "Bearer t")])
    by reflexivity.
  destruct (outcome (request_body 3 (Some ab_schema) ∅ json_input))
    as [body| |] eqn:Hbody; [|discriminate Hbody..].
  apply (proj1 (fetch_response creating 3 (Some ab_schema) ∅ json_input _ body
                  _ Hheaders Hbody eq_refl));
    reflexivity.
Defined.

(** Without a body schema the request that times out is fulfilled. *)
Lemma fetch_without_schema_witness :
  outcome (request_headers timing_out json_input) =
    Ok [("Content-Type", "application/json"); ("Authorization", "Bearer t")] /\
  exists result,
    outcome (fetch (createBrowserFetcher timing_out 0 None ∅) json_input) =
      Ok result.
Proof.
  assert (Hheaders : outcome (request_headers timing_out json_input) =
    Ok [("Content-Type", "application/json"); ("Authorization", "Bearer t")])
    by reflexivity.
  split; [exact Hheaders|].
  destruct (fetch_without_schema timing_out 0 ∅ json_input _ Hheaders)
    as [(result & Hresult & _) _].
  by exists result.
Defined.

(** The JSON request of [json_input] settles with fuel 4. *)
Lemma fetch_terminates_witness :
  switcher_free ∅ (default ∅ (input_dynamicFields json_input)) /\
  outcome (fetch (createBrowserFetcher timing_out 4 (Some ab_schema) ∅) json_input)
  <> OutOfFuel.
Proof.
  assert (Hfree : switcher_free ∅ (default ∅ (input_dynamicFields json_input))).
  { apply map_Forall_empty. }
  split; [exact Hfree|].
  apply (fetch_terminates timing_out 4 (Some ab_schema) ∅ json_input Hfree).
  simpl. lia.
Defined.

(** The upload form has one entry under ["files"] and none under a key
    that the value does not have. *)
Lemma createBodyFromValue_form_data_single_entry_witness :
  outcome (createBodyFromValue 3 form_data upload_value upload_schema ∅ ∅) =
    Ok (BodyFormData [("avatar", EntryFile "me.png");
                      ("files", EntryString "[{},{}]")]) /\
  length (FormData_getAll "files"
            [("avatar", EntryFile "me.png"); ("files", EntryString "[{},{}]")])
    <= 1 /\
  FormData_getAll "owner"
    [("avatar", EntryFile "me.png"); ("files", EntryString "[{},{}]")] = [].
Proof.
  assert (Hbody :
    outcome (createBodyFromValue 3 form_data upload_value upload_schema ∅ ∅) =
    Ok (BodyFormData [("avatar", EntryFile "me.png");
                      ("files", EntryString "[{},{}]")]))
    by reflexivity.
  split; [exact Hbody|].
  destruct (createBodyFromValue_form_data_single_entry 3 upload_value
              upload_schema ∅ ∅ _ Hbody) as (result & Hresult & Hall).
  assert (result = upload_converted) as ->.
  { assert (H : outcome (convertValue 3 "body" upload_value upload_schema ∅ ∅)
                = Ok upload_converted) by reflexivity.
    rewrite H in Hresult. by injection Hresult. }
  split; [apply (Hall "files")|]. apply (Hall "owner").
  apply (bool_decide_unpack _). reflexivity.
Defined.

(** The avatar of the upload form is attached as a file. *)
Lemma createBodyFromValue_form_data_text_witness :
  outcome (createBodyFromValue 3 form_data upload_value upload_schema ∅ ∅) =
    Ok (BodyFormData [("avatar", EntryFile "me.png");
                      ("files", EntryString "[{},{}]")]) /\
  FormData_getAll "avatar"
    [("avatar", EntryFile "me.png"); ("files", EntryString "[{},{}]")] =
    [EntryFile "me.png"].
Proof.
  assert (Hbody :
    outcome (createBodyFromValue 3 form_data upload_value upload_schema ∅ ∅) =
    Ok (BodyFormData [("avatar", EntryFile "me.png");
                      ("files", EntryString "[{},{}]")]))
    by reflexivity.
  split; [exact Hbody|].
  destruct (createBodyFromValue_form_data_text 3 upload_value
              upload_schema ∅ ∅ _ Hbody) as (result & Hresult & Hall).
  assert (result = upload_converted) as ->.
  { assert (H : outcome (convertValue 3 "body" upload_value upload_schema ∅ ∅)
                = Ok upload_converted) by reflexivity.
    rewrite H in Hresult. by injection Hresult. }
  assert (Hkey : "avatar" ∈ Object_keys upload_converted) by left.
  apply (proj1 (Hall "avatar" Hkey) "me.png"). reflexivity.
Defined.


(** The warning about ["note"] names a path below ["body"]. *)
Lemma convertValue_warnings_path_witness :
  "body.note" ∈ warnings (convertValue 2 "body" noted_value ab_schema ∅ ∅) /\
  exists rest, "body.note" = "body" +:+ "." +:+ rest.
Proof.
  assert (Hwarned :
    "body.note" ∈ warnings (convertValue 2 "body" noted_value ab_schema ∅ ∅)).
  { left. }
  split; [exact Hwarned|].
  apply (convertValue_warnings_path 2 "body" noted_value ab_schema ∅ ∅
           "body.note" Hwarned).
Defined.

(** The avatar of the upload form, from the raw value to the form. *)
Lemma createBodyFromValue_form_data_upload_witness :
  outcome (createBodyFromValue 3 form_data upload_value upload_schema ∅ ∅) =
    Ok (BodyFormData [("avatar", EntryFile "me.png");
                      ("files", EntryString "[{},{}]")]) /\
  FormData_getAll "avatar"
    [("avatar", EntryFile "me.png"); ("files", EntryString "[{},{}]")] =
    [EntryFile "me.png"].
Proof.
  assert (Hbody :
    outcome (createBodyFromValue 3 form_data upload_value upload_schema ∅ ∅) =
    Ok (BodyFormData [("avatar", EntryFile "me.png");
                      ("files", EntryString "[{},{}]")]))
    by reflexivity.
  split; [exact Hbody|].
  assert (Hkey : "avatar" ∈ Object_keys upload_value) by left.
  apply (createBodyFromValue_form_data_upload 1 upload_value upload_schema
           (list_to_map
              [("avatar", required t_file);
               ("files", required (t_array (required t_file)));
               ("public", required t_boolean);
               ("title", required t_string)])
           false ∅ ∅ "avatar" (required t_file) (mkSchema t_file true) "me.png"
           _ eq_refl eq_refl eq_refl eq_refl eq_refl upload_keys_distinct Hkey
           eq_refl Hbody).
Defined.

(** The optional field ["b"] of [{a: "x", b: ""}] has no member in the
    JSON body. *)
Lemma createBodyFromValue_json_omits_optional_witness :
  exists text members,
    outcome (createBodyFromValue 3 json ab_value ab_schema ∅ ∅) =
      Ok (BodyString text) /\
    JSON_parse text = Some (JObject members) /\
    "b" ∉ members.*1.
Proof.
  apply (createBodyFromValue_json_omits_optional 1 ab_value ab_schema
           (list_to_map [("a", required t_string); ("b", optional t_number)])
           false ∅ ∅ "b" (optional t_number) (mkSchema t_number false)
           (VObject [("a", VString "x"); ("b", VUndefined)])
           eq_refl eq_refl eq_refl eq_refl eq_refl eq_refl eq_refl eq_refl).
Defined.

End MoreChecks.
